(** * nara_bid_app: the result-shaping pipeline of [app.py]

    A shallow embedding of the functions of [src/app.py] that carry the
    logic of the application ([safe_get_items], [normalize_date_str],
    [parse_money], [search_bids]) and the properties the specification
    states about them.

    Conventions of the embedding.
    - A Python [str] is a list of Unicode code points ([str]); the
      literals of the source are written as UTF-8 text and decoded by
      [py].
    - A decoded JSON document is a [json]; a JSON object is a finite map
      from keys to documents, as a Python [dict] is.
    - A Python [float] is a binary64 number, a [spec_float] of the
      standard library with precision 53 and maximal exponent 1024.
    - A [try] block is a computation in [result]; [try_except] is the
      handler.
    - The one HTTP request of [search_bids] is a node of the [prog]
      type; [run] plays a program against a server and records the
      requests that were issued.
    - A data frame of pandas is its columns and its rows; what
      [pd.json_normalize] makes of records of texts is defined here,
      what it makes of any other shape is a parameter of the pipeline. *)

From Stdlib Require Import ZArith NArith Ascii String List Bool Lia.
From Stdlib Require Import DecimalString DecimalPos.
From Stdlib Require Import Floats.SpecFloat.
From stdpp Require Import base option list gmap.

Local Open Scope Z_scope.

#[local] Set Warnings "-register-all".

(* ================================================================== *)
(** * Part I. The embedding                                            *)
(* ================================================================== *)

(** ** Text *)

(** A character is its Unicode code point. *)
Abbreviation char := N (only parsing).
Abbreviation str := (list N) (only parsing).

(** Decoder of the UTF-8 text of a literal: [need] continuation bytes
    are still expected and [acc] holds the bits read so far. *)
Fixpoint utf8_decode (need : nat) (acc : N) (s : string) : str :=
  match s with
  | EmptyString => []
  | String a rest =>
      let b := N_of_ascii a in
      match need with
      | O =>
          if (b <? 128)%N then b :: utf8_decode 0 0%N rest
          else if (b <? 224)%N then utf8_decode 1 (b - 192)%N rest
          else if (b <? 240)%N then utf8_decode 2 (b - 224)%N rest
          else utf8_decode 3 (b - 240)%N rest
      | S O => (acc * 64 + (b - 128))%N :: utf8_decode 0 0%N rest
      | S n => utf8_decode n (acc * 64 + (b - 128))%N rest
      end
  end.

Definition py (s : string) : str := utf8_decode 0 0%N s.
Arguments py s%_string : simpl never.

(** [str.isspace] of one character (the white space of Unicode, which is
    what [str.strip] removes). *)
Definition whitespace : list N :=
  [0x09; 0x0A; 0x0B; 0x0C; 0x0D; 0x1C; 0x1D; 0x1E; 0x1F; 0x20; 0x85; 0xA0;
   0x1680; 0x2000; 0x2001; 0x2002; 0x2003; 0x2004; 0x2005; 0x2006; 0x2007;
   0x2008; 0x2009; 0x200A; 0x2028; 0x2029; 0x202F; 0x205F; 0x3000]%N.

Definition isspace (c : char) : bool := existsb (N.eqb c) whitespace.

(** The code points of the digit zero of every script with decimal
    digits (general category Nd, Unicode 14.0 as shipped with
    CPython 3.11); the ten digits of a script are consecutive. *)
Definition decimal_zeros : list N :=
  [0x30; 0x660; 0x6F0; 0x7C0; 0x966; 0x9E6; 0xA66; 0xAE6; 0xB66; 0xBE6;
   0xC66; 0xCE6; 0xD66; 0xDE6; 0xE50; 0xED0; 0xF20; 0x1040; 0x1090;
   0x17E0; 0x1810; 0x1946; 0x19D0; 0x1A80; 0x1A90; 0x1B50; 0x1BB0;
   0x1C40; 0x1C50; 0xA620; 0xA8D0; 0xA900; 0xA9D0; 0xA9F0; 0xAA50;
   0xABF0; 0xFF10; 0x104A0; 0x10D30; 0x11066; 0x110F0; 0x11136; 0x111D0;
   0x112F0; 0x11450; 0x114D0; 0x11650; 0x116C0; 0x11730; 0x118E0;
   0x11950; 0x11C50; 0x11D50; 0x11DA0; 0x16A60; 0x16AC0; 0x16B50;
   0x1D7CE; 0x1D7D8; 0x1D7E2; 0x1D7EC; 0x1D7F6; 0x1E140; 0x1E2F0;
   0x1E950; 0x1FBF0]%N.

(** [Py_UNICODE_TODECIMAL]: the value of a decimal digit, [None] for any
    other character.  The class [\d] of [re] on [str] patterns is the
    set of characters with a value. *)
Fixpoint todecimal_in (zeros : list N) (c : char) : option Z :=
  match zeros with
  | [] => None
  | z :: zeros' =>
      if ((z <=? c) && (c <? z + 10))%N then Some (Z.of_N (c - z))
      else todecimal_in zeros' c
  end.

Definition todecimal (c : char) : option Z := todecimal_in decimal_zeros c.

Definition isdecimal (c : char) : bool :=
  match todecimal c with Some _ => true | None => false end.

(** The ASCII digits, the only ones the numeric parser of pandas reads. *)
Definition ascii_digit (c : char) : option Z :=
  if ((0x30 <=? c) && (c <? 0x3A))%N then Some (Z.of_N (c - 0x30)) else None.

Fixpoint lstrip (s : str) : str :=
  match s with
  | c :: s' => if isspace c then lstrip s' else s
  | [] => []
  end.

Definition rstrip (s : str) : str := rev (lstrip (rev s)).

(** [s.strip()] *)
Definition strip (s : str) : str := rstrip (lstrip s).

(** [re.sub(r"[^\d]", "", s)] *)
Definition re_sub_nondigit (s : str) : str := filter (fun c => isdecimal c = true) s.

(** [s.replace(old, "")] for a one-character [old]. *)
Definition remove_char (old : char) (s : str) : str :=
  filter (fun c => c ≠ old) s.

(** [needle in s] *)
Fixpoint prefix_of (needle s : str) : bool :=
  match needle, s with
  | [], _ => true
  | _ :: _, [] => false
  | a :: needle', b :: s' => (a =? b)%N && prefix_of needle' s'
  end.

Fixpoint contains (s needle : str) : bool :=
  prefix_of needle s ||
  match s with
  | [] => false
  | _ :: s' => contains s' needle
  end.

(** [str(n)] of an integer. *)
Definition str_of_int (n : Z) : str :=
  map N_of_ascii (list_ascii_of_string (NilZero.string_of_int (Z.to_int n))).

(** ** Numbers *)

(** Python's [float] is binary64. *)
Abbreviation float := spec_float (only parsing).

(** The binary64 number nearest to an integer (ties to even, infinite
    beyond the range). *)
Definition float_of_Z (n : Z) : float := binary_normalize 53 1024 n 0 false.

(** [x <= y] and [x >= y] on floats; both are false on a NaN. *)
Definition float_le (x y : float) : bool := SFleb x y.
Definition float_ge (x y : float) : bool := SFleb y x.

(** The mantissa of the binary64 number of a positive integer below
    2^53: the integer shifted to 53 bits. *)
Definition mantissa53 (m : positive) : positive :=
  match (53 - Zpos (digits2_pos m))%Z with
  | Zpos d => Pos.iter xO m d
  | _ => m
  end.

(** The integer denoted by the digits, most significant first. *)
Definition decimal_value (ds : list Z) : Z :=
  fold_left (fun acc d => 10 * acc + d) ds 0.

(** ** Exceptions and [try] *)

Inductive exn : Type :=
  | AttributeError
  | ValueError
  | OverflowError
  | JSONDecodeError
  | OtherException (message : str).

Inductive result (A : Type) : Type :=
  | Ok (a : A)
  | Raise (e : exn).
Arguments Ok {A} a.
Arguments Raise {A} e.

#[global] Instance result_ret : MRet result := fun _ a => Ok a.
#[global] Instance result_bind : MBind result := fun _ _ k m =>
  match m with
  | Ok a => k a
  | Raise e => Raise e
  end.

(** [try: body / except Exception: handler] *)
Definition try_except {A} (body : result A) (handler : exn → result A) : result A :=
  match body with
  | Ok a => Ok a
  | Raise e => handler e
  end.

(** ** Decoded JSON *)

Inductive json : Type :=
  | JNull
  | JBool (b : bool)
  | JInt (n : Z)
  | JFloat (x : float)
  | JStr (s : str)
  | JList (l : list json)
  | JDict (d : gmap str json).

(** Truth value of an object, as [not x] and [if x] test it. *)
Definition truthy (v : json) : bool :=
  match v with
  | JNull => false
  | JBool b => b
  | JInt n => negb (n =? 0)
  | JFloat x => match x with S754_zero _ => false | _ => true end
  | JStr s => match s with [] => false | _ => true end
  | JList l => match l with [] => false | _ => true end
  | JDict d => negb (bool_decide (size d = 0%nat))
  end.

(** [v == s] for a text [s]. *)
Definition eq_str (v : json) (s : str) : bool :=
  match v with
  | JStr s' => bool_decide (s' = s)
  | _ => false
  end.

(** [v.get(key, default)]: only a [dict] has the method. *)
Definition py_get (v : json) (key : str) (dflt : json) : result json :=
  match v with
  | JDict d => Ok (default dflt (d !! key))
  | _ => Raise AttributeError
  end.

(** ** [safe_get_items] *)

(** The body of the [try] block of [safe_get_items]. *)
Definition safe_get_items_body (json_data : json) : result (list json) :=
  response ← py_get json_data (py "response") (JDict ∅);
  body ← py_get response (py "body") (JDict ∅);
  items ← py_get body (py "items") JNull;
  if negb (truthy items) then Ok []
  else
    match items with
    | JList l => Ok l
    | JDict _ =>
        item ← py_get items (py "item") JNull;
        match item with
        | JList l => Ok l
        | JDict _ => Ok [item]
        | _ => Ok []
        end
    | _ => Ok []
    end.

Definition safe_get_items (json_data : json) : result (list json) :=
  try_except (safe_get_items_body json_data) (fun _ => Ok []).

(** The extractor in the words of the specification: the value found
    along a path of keys, absent as soon as a key is missing or the
    value on the way is not a mapping. *)
Fixpoint descend (v : json) (path : list str) : option json :=
  match path with
  | [] => Some v
  | key :: path' =>
      match v with
      | JDict d => match d !! key with
                   | Some v' => descend v' path'
                   | None => None
                   end
      | _ => None
      end
  end.

Definition extracted_items (envelope : json) : list json :=
  match descend envelope [py "response"; py "body"; py "items"] with
  | None => []
  | Some items =>
      if negb (truthy items) then []
      else
        match items with
        | JList l => l
        | JDict d =>
            match d !! py "item" with
            | Some (JList l) => l
            | Some (JDict one) => [JDict one]
            | _ => []
            end
        | _ => []
        end
  end.

(** ** [normalize_date_str] *)

(** The values the start and end dates take: nothing, text, or a
    [date] of the calendar. *)
Inductive date_arg : Type :=
  | DateNone
  | DateStr (s : str)
  | Date (year month day : Z).

(** A number in decimal, padded with zeros on the left to [width]
    digits. *)
Definition zero_pad (width : nat) (n : Z) : str :=
  let s := str_of_int n in
  replicate (width - length s)%nat 0x30%N ++ s.

(** [d.strftime("%Y-%m-%d")]: the year as the C library prints it
    (four digits from the year 1000 on), the month and the day on two
    digits. *)
Definition strftime_Ymd (year month day : Z) : str :=
  str_of_int year ++ py "-" ++ zero_pad 2 month ++ py "-" ++ zero_pad 2 day.

Definition normalize_date_str (d : date_arg) : str :=
  match d with
  | DateNone => []
  | DateStr s => match s with [] => [] | _ => strip s end
  | Date y m dd => strftime_Ymd y m dd
  end.

(** ** [parse_money] *)

(** The values of the decimal digits of a text, in order; every other
    character is passed over. *)
Definition digits_of (s : str) : list Z := omap todecimal s.

(** [float(s)] for a text of decimal digits, which is all [parse_money]
    hands to it: the nearest binary64 number.  An empty text is a
    [ValueError]; the other numerals [float] reads (signs, fractions,
    exponents) do not occur here and are not modelled, the model answers
    [ValueError] for them. *)
Definition py_float (s : str) : result float :=
  match mapM todecimal s with
  | Some (d :: ds) => Ok (float_of_Z (decimal_value (d :: ds)))
  | _ => Raise ValueError
  end.

(** The argument is [None] or a text, as the text inputs of the form
    deliver it. *)
Definition parse_money (val : option str) : result (option float) :=
  match val with
  | None => Ok None
  | Some v =>
      let s := strip v in
      match s with
      | [] => Ok None
      | _ =>
          let s := re_sub_nondigit s in
          match s with
          | [] => Ok None
          | _ => try_except (x ← py_float s; Ok (Some x)) (fun _ => Ok None)
          end
      end
  end.

(** The normalizer in the words of the specification: no value when
    there is no input or no digit in it, else the number read from the
    digits that remain. *)
Definition money_of_digits (ds : list Z) : option float :=
  match ds with
  | [] => None
  | _ => Some (float_of_Z (decimal_value ds))
  end.

Definition normalized_money (val : option str) : option float :=
  match val with
  | None => None
  | Some v => money_of_digits (digits_of v)
  end.

(** ** The operation log *)

(** A line of the log is a formatted text: literal text and the values
    an f-string puts into it.  The rendering of the values is Python's
    and is left to it. *)
Inductive piece : Type :=
  | Text (s : str)
  | Value (v : json)
  | Number (n : Z)
  | Money (x : float)
  | Exception (e : exn).

Abbreviation line := (list piece) (only parsing).

(** The log returned to the caller is its lines joined by new lines; it
    is kept as the list of the lines. *)
Abbreviation log := (list (list piece)) (only parsing).

(** ** Data frames *)

(** A cell of a frame: a text, [None], or an object of another type
    known by what [str] shows of it.  A missing value (NaN) is a key
    without a cell in the row. *)
Inductive cell : Type :=
  | CStr (s : str)
  | CNone
  | CObject (shown : str).

Abbreviation row := (gmap (list N) cell) (only parsing).

Record DataFrame : Type := mkDataFrame {
  columns : list str;
  rows : list row
}.

(** [pd.DataFrame()] *)
Definition empty_frame : DataFrame := mkDataFrame [] [].

(** One element of [series.astype(str)]. *)
Definition astype_str (c : option cell) : str :=
  match c with
  | Some (CStr s) => s
  | Some CNone => py "None"
  | Some (CObject shown) => shown
  | None => py "nan"
  end.

(** One element of [pd.to_numeric(series, errors="coerce")] on texts:
    a text of ASCII digits is read as the integer it denotes, anything
    else (the empty text, digits of another script) is NaN, here
    [None].  The column holds the integers themselves while they fit 64
    bits; its only uses are the comparison with a [float] bound and the
    conversion [astype(float)], which both see the nearest binary64
    number, so that is the value kept.  Below 2^53 that number is the
    integer itself; from there on pandas' own parser decides the last
    place, and the properties of the price column are stated below that
    bound. *)
Definition to_numeric_coerce (s : str) : option float :=
  match mapM ascii_digit s with
  | Some (d :: ds) => Some (float_of_Z (decimal_value (d :: ds)))
  | _ => None
  end.

(** [series.fillna(0)] on one element. *)
Definition fillna0 (x : option float) : float := default (float_of_Z 0) x.

(** A row together with its value in the column [_presmpt_num]. *)
Record priced : Type := mkPriced {
  cells : row;
  presmpt_num : float
}.

(** The value of [_presmpt_num] that a text of the price column gets:
    [str.replace], [pd.to_numeric] and [fillna(0)] on one element. *)
Definition price_of_text (s : str) : float :=
  fillna0 (to_numeric_coerce (re_sub_nondigit s)).

(** The value of [_presmpt_num] for a row of the frame [df]. *)
Definition presmpt_num_of (df : DataFrame) (r : row) : float :=
  if bool_decide (py "presmptPrce" ∈ columns df) then
    price_of_text (astype_str (r !! py "presmptPrce"))
  else float_of_Z 0.

Definition with_presmpt_num (df : DataFrame) : list priced :=
  map (fun r => mkPriced r (presmpt_num_of df r)) (rows df).

(** [df[df["_presmpt_num"] >= min_val]] and [df[df["_presmpt_num"] <= max_val]] *)
Definition filter_min (min_val : option float) (rs : list priced) : list priced :=
  match min_val with
  | Some m => filter (fun r => float_ge (presmpt_num r) m = true) rs
  | None => rs
  end.

Definition filter_max (max_val : option float) (rs : list priced) : list priced :=
  match max_val with
  | Some m => filter (fun r => float_le (presmpt_num r) m = true) rs
  | None => rs
  end.

(** The price range in the words of the specification: a bound that is
    there must hold, a bound that is not there asks nothing. *)
Definition within (min_val max_val : option float) (r : priced) : bool :=
  match min_val with Some m => float_ge (presmpt_num r) m | None => true end &&
  match max_val with Some m => float_le (presmpt_num r) m | None => true end.

(** Rows that carry nothing but a price. *)
Definition priced_at (prices : list Z) : list priced :=
  map (fun z => mkPriced ∅ (float_of_Z z)) prices.

(** [df["cntrctCnclsMthdNm"].astype(str).str.contains("수의", na=False)] on
    one row. *)
Definition is_private (r : priced) : bool :=
  contains (astype_str (cells r !! py "cntrctCnclsMthdNm")) (py "수의").

(** A row that carries nothing but a contract method, and one that
    lacks it. *)
Definition with_method (method : string) : priced :=
  mkPriced {[ py "cntrctCnclsMthdNm" := CStr (py method) ]} (float_of_Z 0).

Definition without_method : priced := mkPriced ∅ (float_of_Z 0).

(** The contract-method step: the rows kept and the line logged. *)
Definition filter_contract (cols : list str) (contract_filter : str) (rs : list priced)
  : list priced * line :=
  if bool_decide (py "cntrctCnclsMthdNm" ∈ cols) then
    if bool_decide (contract_filter = py "only_private") then
      (filter (fun r => is_private r = true) rs, [Text (py "✅ 계약방법 필터: 수의계약만")])
    else if bool_decide (contract_filter = py "exclude_private") then
      (filter (fun r => is_private r = false) rs, [Text (py "✅ 계약방법 필터: 수의계약 제외")])
    else (rs, [Text (py "✅ 계약방법 필터: 전체")])
  else (rs, [Text (py "⚠ cntrctCnclsMthdNm 컬럼 없음 (계약방법 필터 미적용)")]).

(** ** The view handed to the caller *)

(** [int(x)] of a float: the integer part, an error on an infinity or
    a NaN. *)
Definition py_int (x : float) : result Z :=
  match x with
  | S754_zero _ => Ok 0
  | S754_finite s m e =>
      let a := Z.shiftl (Zpos m) e in
      Ok (if s then - a else a)
  | S754_infinity _ => Raise OverflowError
  | S754_nan => Raise ValueError
  end.

(** Commas between the groups of three of a text of digits written
    from the units up. *)
Fixpoint commas (ds : str) : str :=
  match ds with
  | a :: b :: c :: ((_ :: _) as more) => a :: b :: c :: 0x2C%N :: commas more
  | _ => ds
  end.

(** [f"{n:,}"] *)
Definition format_thousands (n : Z) : str :=
  (if n <? 0 then py "-" else []) ++ rev (commas (rev (str_of_int (Z.abs n)))).

Definition prefer_cols : list str :=
  [py "bidNtceNo"; py "bidNtceOrd"; py "bidNtceNm"; py "ntceInsttNm";
   py "pblancDate"; py "opengDt"; py "indstrytyNm"; py "presmptPrce";
   py "prtcptLmtRgnCd"; py "prtcptLmtRgnNm"; py "cntrctCnclsMthdNm"].

Definition col_map : list (str * str) :=
  [(py "bidNtceNo", py "공고번호");
   (py "bidNtceOrd", py "공고차수");
   (py "bidNtceNm", py "공고명");
   (py "ntceInsttNm", py "공고기관");
   (py "pblancDate", py "공고게시일시");
   (py "opengDt", py "개찰일시");
   (py "indstrytyNm", py "업종명");
   (py "presmptPrce", py "기초금액");
   (py "prtcptLmtRgnCd", py "참가제한지역코드");
   (py "prtcptLmtRgnNm", py "참가제한지역명");
   (py "cntrctCnclsMthdNm", py "계약방법")].

(** The name a column has after [rename(columns=col_map)]. *)
Definition renamed (c : str) : str :=
  match list_find (fun kv => kv.1 = c) col_map with
  | Some (_, (_, shown)) => shown
  | None => c
  end.

(** A row of [df_view]: the cells of the columns of [exist], the price
    shown with commas from [_presmpt_num], under the renamed columns. *)
Definition view_row (exist : list str) (r : priced) : result row :=
  price ← (if bool_decide (py "presmptPrce" ∈ exist)
           then n ← py_int (presmpt_num r); Ok (Some (CStr (format_thousands n)))
           else Ok None);
  Ok (list_to_map
        (omap (fun c =>
                 v ← (if bool_decide (c = py "presmptPrce") then price else cells r !! c);
                 Some (renamed c, v))
              exist)).

Definition make_view (cols : list str) (rs : list priced) : result DataFrame :=
  let exist := filter (fun c => c ∈ cols) prefer_cols in
  view_rows ← mapM (view_row exist) rs;
  Ok (mkDataFrame (map renamed exist) view_rows).

(** ** The request *)

Definition BASE_URL : str :=
  py "https://apis.data.go.kr/1230000/ad/BidPublicInfoService/getBidPblancListInfoCnstwkPPSSrch".

Record request : Type := mkRequest {
  url : str;
  params : gmap str str;
  timeout : Z
}.

(** What [requests.get] hands back: the status, the body as text, and
    what [resp.json()] makes of it, a document or an exception. *)
Record response : Type := mkResponse {
  status_code : Z;
  text : str;
  json_of : result json
}.

(** A program that may issue requests with [requests.get]; the answer
    is a response or the exception of a failed transport. *)
Inductive prog (A : Type) : Type :=
  | Return (a : A)
  | Get (rq : request) (k : result response → prog A).
Arguments Return {A} a.
Arguments Get {A} rq k.

(** A run against a server: the value and the requests issued, in
    order. *)
Fixpoint run {A} (server : request → result response) (p : prog A) : A * list request :=
  match p with
  | Return a => (a, [])
  | Get rq k =>
      let '(a, issued) := run server (k (server rq)) in
      (a, rq :: issued)
  end.

(** ** [search_bids] *)

(** The lines of the log. *)
Definition line_no_key : line := [Text (py "❌ SERVICE_KEY가 설정되지 않았습니다.")].
Definition line_requested : line := [Text (py "📎 나라장터 API 요청 완료")].
Definition line_http_error (status : Z) : line :=
  [Text (py "❌ HTTP 오류: "); Number status].
Definition line_json_failed : line := [Text (py "❌ JSON 파싱 실패")].
Definition line_api (code msg : json) : line :=
  [Text (py "API 응답 코드: "); Value code; Text (py ", 메시지: "); Value msg].
Definition line_rejected : line := [Text (py "❌ 조건 불충족 또는 파라미터 오류")].
Definition line_no_data : line := [Text (py "⚠ 검색 조건에 해당하는 데이터 없음")].
Definition line_min (m : float) : line :=
  [Text (py "🔻 최소 기초금액 이상 필터: "); Money m; Text (py "원")].
Definition line_max (m : float) : line :=
  [Text (py "🔺 최대 기초금액 이하 필터: "); Money m; Text (py "원")].
Definition line_none_left : line := [Text (py "⚠ 필터 적용 후 남은 공고 없음")].
Definition line_count (n : nat) : line :=
  [Text (py "📊 공고 건수(모든 필터 적용 후): "); Number (Z.of_nat n); Text (py "건")].
Definition line_exception (e : exn) : line :=
  [Text (py "💥 예외 발생: "); Exception e].

(** The parameters of [search_bids], typed as the form delivers them. *)
Record args : Type := mkArgs {
  service_key : str;
  start_date : date_arg;
  end_date : date_arg;
  inqry_div : Z;
  bid_name : str;
  industry_name : str;
  region_code : str;
  min_price : option str;
  max_price : option str;
  contract_filter : str;
  page_no : Z;
  num_rows : Z
}.

(** [if s:] on a text. *)
Definition nonempty (s : str) : bool :=
  match s with [] => false | _ => true end.

(** [if cond: params[key] = value] *)
Definition set_if (cond : bool) (key value : str) (params : gmap str str) : gmap str str :=
  if cond then <[key := value]> params else params.

(** The keys of the parameters: the five that are always sent and the
    five that depend on a criterion. *)
Definition always_keys : list str :=
  [py "serviceKey"; py "pageNo"; py "numOfRows"; py "inqryDiv"; py "type"].

Definition optional_keys : list str :=
  [py "inqryBgnDt"; py "inqryEndDt"; py "bidNtceNm"; py "indstrytyNm"; py "prtcptLmtRgnCd"].

(** The statements of [search_bids] that fill [params], up to the
    [try]. *)
Definition build_params (a : args) : gmap str str :=
  let start_str := normalize_date_str (start_date a) in
  let end_str := normalize_date_str (end_date a) in
  let inqry_bgn :=
    if nonempty start_str then remove_char 0x2D%N start_str ++ py "0000" else [] in
  let inqry_end :=
    if nonempty end_str then remove_char 0x2D%N end_str ++ py "2359" else [] in
  let params : gmap str str :=
    <[py "type" := py "json"]>
    (<[py "inqryDiv" := str_of_int (inqry_div a)]>
    (<[py "numOfRows" := str_of_int (num_rows a)]>
    (<[py "pageNo" := str_of_int (page_no a)]>
    (<[py "serviceKey" := service_key a]> ∅)))) in
  let params := set_if (nonempty inqry_bgn) (py "inqryBgnDt") inqry_bgn params in
  let params := set_if (nonempty inqry_end) (py "inqryEndDt") inqry_end params in
  let params := set_if (nonempty (bid_name a)) (py "bidNtceNm") (strip (bid_name a)) params in
  let params :=
    set_if (nonempty (industry_name a)) (py "indstrytyNm") (strip (industry_name a)) params in
  let region_code := strip (region_code a) in
  set_if (nonempty region_code) (py "prtcptLmtRgnCd")
         (if bool_decide (length region_code = 1%nat) then py "0" ++ region_code
          else region_code)
         params.

(** [requests.get(BASE_URL, params=params, timeout=10)] *)
Definition request_of (a : args) : request := mkRequest BASE_URL (build_params a) 10.

(** The cell of a field that is a text or a null, as the service sends
    them. *)
Definition cell_of (v : json) : option cell :=
  match v with
  | JStr s => Some (CStr s)
  | JNull => Some CNone
  | _ => None
  end.

(** The row of an item whose fields are all texts or nulls. *)
Definition flat_record (item : json) : option row :=
  match item with
  | JDict d =>
      if decide (map_Forall (fun _ v => is_Some (cell_of v)) d)
      then Some (omap cell_of d) else None
  | _ => None
  end.

(** The frame of such records: one row per record, one column per
    field met, no cell where a record lacks the field.  The order of
    the columns of the frame is never observed: the view follows
    [prefer_cols]. *)
Definition frame_of_records (records : list row) : DataFrame :=
  mkDataFrame (elements (⋃ (dom <$> records) : gset str)) records.

(** The state in which the [try] block is left: the lines appended to
    [log_lines] so far, and either the table returned or the exception
    raised. *)
Definition exit : Type := log * result DataFrame.

(** Evaluation of an expression inside the [try] block: an exception
    leaves the block with the lines logged so far. *)
Definition eval {A} (log_lines : log) (m : result A) (k : A → exit) : exit :=
  match m with
  | Ok a => k a
  | Raise e => (log_lines, Raise e)
  end.

(** The result code and the message of the header of the document. *)
Definition read_header (data : json) : result (json * json) :=
  response ← py_get data (py "response") (JDict ∅);
  header ← py_get response (py "header") (JDict ∅);
  code ← py_get header (py "resultCode") JNull;
  msg ← py_get header (py "resultMsg") JNull;
  Ok (code, msg).

Section Pipeline.

(** What [pd.json_normalize] does on items of any other shape (nested
    objects, numbers, items that are not objects): pandas' own
    handling, taken as given. *)
Variable json_normalize_other : list json → result DataFrame.

(** [pd.json_normalize(items)] *)
Definition json_normalize (items : list json) : result DataFrame :=
  match mapM flat_record items with
  | Some records => Ok (frame_of_records records)
  | None => json_normalize_other items
  end.

(** From the frame to the view: the price column, the two price
    filters, the contract-method filter, the projection. *)
Definition shape_frame (a : args) (df : DataFrame) (log_lines : log) : exit :=
  let rs := with_presmpt_num df in
  eval log_lines (parse_money (min_price a)) (fun min_val =>
  eval log_lines (parse_money (max_price a)) (fun max_val =>
  let rs := filter_min min_val rs in
  let log_lines :=
    match min_val with
    | Some m => log_lines ++ [line_min m]
    | None => log_lines
    end in
  let rs := filter_max max_val rs in
  let log_lines :=
    match max_val with
    | Some m => log_lines ++ [line_max m]
    | None => log_lines
    end in
  let '(rs, logged) := filter_contract (columns df) (contract_filter a) rs in
  let log_lines := log_lines ++ [logged] in
  match rs with
  | [] => (log_lines ++ [line_none_left], Ok empty_frame)
  | _ =>
      eval log_lines (make_view (columns df) rs) (fun df_view =>
      let log_lines :=
        log_lines ++ [line_count (length (rows df_view))] in
      (log_lines, Ok df_view))
  end)).

(** From the decoded document to the frame. *)
Definition shape_data (a : args) (data : json) (log_lines : log) : exit :=
  eval log_lines (read_header data) (fun '(code, msg) =>
  let log_lines :=
    log_lines ++ [line_api code msg] in
  if negb (eq_str code (py "00")) then
    (log_lines ++ [line_rejected], Ok empty_frame)
  else
    eval log_lines (safe_get_items data) (fun items =>
    match items with
    | [] => (log_lines ++ [line_no_data], Ok empty_frame)
    | _ => eval log_lines (json_normalize items) (fun df => shape_frame a df log_lines)
    end)).

(** The [try] block, from the answer of [requests.get] on. *)
Definition try_block (a : args) (answer : result response) : exit :=
  eval [] answer (fun resp =>
  let log_lines := [line_requested] in
  if bool_decide (status_code resp ≠ 200) then
    (log_lines ++ [line_http_error (status_code resp)], Ok empty_frame)
  else
    match json_of resp with
    | Ok data => shape_data a data log_lines
    | Raise JSONDecodeError =>
        (log_lines ++ [line_json_failed] ++ [[Text (take 200 (text resp))]],
         Ok empty_frame)
    | Raise e => (log_lines, Raise e)
    end).

(** [except Exception as e:] at the end of [search_bids]. *)
Definition outer_handler (left : exit) : result (log * DataFrame) :=
  match left with
  | (log_lines, Ok table) => Ok (log_lines, table)
  | (log_lines, Raise e) =>
      Ok (log_lines ++ [line_exception e], empty_frame)
  end.

(** [search_bids]: a value returned to the caller, or an exception
    that reaches it. *)
Definition search_bids (a : args) : prog (result (log * DataFrame)) :=
  if negb (nonempty (service_key a)) then
    Return (Ok ([line_no_key], empty_frame))
  else
    Get (request_of a)
        (fun answer => Return (outer_handler (try_block a answer))).

End Pipeline.

(** The rows [search_bids] keeps of a frame, in the words of the
    specification: the rows in the price range that pass the
    contract-method filter. *)
Definition kept_rows (a : args) (df : DataFrame) : list priced :=
  (filter_contract (columns df) (contract_filter a)
     (filter (fun r => within (normalized_money (min_price a))
                              (normalized_money (max_price a)) r = true)
             (with_presmpt_num df))).1.

(** ** Inputs used to exercise the pipeline *)

(** A [pd.json_normalize] that fails on the shapes left to it, and a
    server that cannot be reached. *)
Definition no_other_shape : list json → result DataFrame :=
  fun _ => Raise (OtherException (py "json_normalize")).

Definition unreachable : request → result response :=
  fun _ => Raise (OtherException (py "ConnectionError")).

(** A search with the given credential, title keyword and region code:
    March 2024, first page of a hundred rows, no price bound. *)
Definition search_with (key keyword region : string) : args :=
  mkArgs (py key) (Date 2024 3 1) (Date 2024 3 31) 1 (py keyword) (py "") (py region)
         None None (py "all") 1 100.

(** A document with the given result code, message and items. *)
Definition envelope_of (code msg : string) (items : json) : json :=
  JDict {[ py "response" :=
             JDict (<[py "header" :=
                        JDict (<[py "resultCode" := JStr (py code)]>
                               {[ py "resultMsg" := JStr (py msg) ]})]>
                    {[ py "body" := JDict {[ py "items" := items ]} ]}) ]}.

(** An announcement with a title, a base price and a contract method. *)
Definition bid (title price method : string) : json :=
  JDict (<[py "bidNtceNm" := JStr (py title)]>
         (<[py "presmptPrce" := JStr (py price)]>
          {[ py "cntrctCnclsMthdNm" := JStr (py method) ]})).

(** A server that answers every request with the status and the text,
    which is not JSON. *)
Definition failing_with (status : Z) (body : string) : request → result response :=
  fun _ => Ok (mkResponse status (py body) (Raise JSONDecodeError)).

(** A server that answers every request with the document. *)
Definition answering (data : json) : request → result response :=
  fun _ => Ok (mkResponse 200 (py "") (Ok data)).

(** ** [get_service_key] and the glue of [main] *)



(** The choice of the contract-method radio as [main] passes it on. *)
Definition contract_filter_of_label (contract_filter_label : str) : str :=
  if bool_decide (contract_filter_label = py "전체") then py "all"
  else if bool_decide (contract_filter_label = py "수의계약만") then py "only_private"
  else py "exclude_private".

(** [1 if inqry_div_label.startswith("공고") else 2] *)
Definition inqry_div_of_label (inqry_div_label : str) : Z :=
  if prefix_of (py "공고") inqry_div_label then 1 else 2.

(** ** Definitions used to state further properties *)

(** The digits of a decimal numeral and the characters that write it. *)
Fixpoint uint_digits (d : Decimal.uint) : list Z :=
  match d with
  | Decimal.Nil => []
  | Decimal.D0 d => 0 :: uint_digits d
  | Decimal.D1 d => 1 :: uint_digits d
  | Decimal.D2 d => 2 :: uint_digits d
  | Decimal.D3 d => 3 :: uint_digits d
  | Decimal.D4 d => 4 :: uint_digits d
  | Decimal.D5 d => 5 :: uint_digits d
  | Decimal.D6 d => 6 :: uint_digits d
  | Decimal.D7 d => 7 :: uint_digits d
  | Decimal.D8 d => 8 :: uint_digits d
  | Decimal.D9 d => 9 :: uint_digits d
  end.

Definition chars_of_uint (d : Decimal.uint) : str :=
  map N_of_ascii (list_ascii_of_string (NilEmpty.string_of_uint d)).

(** A float that is neither negative nor a NaN. *)
Definition nonneg_float (x : float) : bool :=
  match x with
  | S754_zero _ => true
  | S754_finite s _ _ => negb s
  | S754_infinity s => negb s
  | S754_nan => false
  end.

(** The lines the price steps and the contract-method step add to the
    log. *)
Definition filter_lines (a : args) (df : DataFrame) : log :=
  match normalized_money (min_price a) with Some m => [line_min m] | None => [] end ++
  match normalized_money (max_price a) with Some m => [line_max m] | None => [] end ++
  [(filter_contract (columns df) (contract_filter a) []).2].

(** The cell of the view for the column [c] of a row: the formatted
    price for the price column, the cell of the frame for another, under
    the renamed column. *)
Definition view_cell (price : option cell) (r : priced) (c : str)
  : option (str * cell) :=
  v ← (if bool_decide (c = py "presmptPrce") then price else cells r !! c);
  Some (renamed c, v).

(** A row whose price text holds at most fifteen digits, so that the
    price is below 2^53 and the price column holds it exactly. *)
Definition short_price (r : row) : Prop :=
  (length (re_sub_nondigit (astype_str (r !! py "presmptPrce"))) ≤ 15)%nat.


(** The document of two announcements and the records of its items. *)
Definition two_bids : json :=
  envelope_of "00" "정상"
    (JList [bid "도로 보수" "100,000,000" "일반경쟁"; bid "청사 증축" "500,000,000" "수의계약"]).

Definition two_records : list row :=
  default [] (mapM flat_record
                [bid "도로 보수" "100,000,000" "일반경쟁"; bid "청사 증축" "500,000,000" "수의계약"]).

(** The log and the table of what [search_bids] returned. *)
Definition log_of (returned : result (log * DataFrame)) : log :=
  match returned with Ok (log_lines, _) => log_lines | Raise _ => [] end.

Definition table_of (returned : result (log * DataFrame)) : DataFrame :=
  match returned with Ok (_, table) => table | Raise _ => empty_frame end.

(* ================================================================== *)
(** * Part II. Properties                                              *)
(* ================================================================== *)

(** ** Numbers *)

Lemma digits2_pos_bounds (m : positive) :
  2 ^ (Zpos (digits2_pos m) - 1) ≤ Zpos m < 2 ^ Zpos (digits2_pos m).
Proof.
  induction m as [p IH | p IH |]; cbn [digits2_pos].
  - rewrite Pos2Z.inj_succ, Z.pow_succ_r by lia.
    replace (Z.succ (Zpos (digits2_pos p)) - 1) with (Z.succ (Zpos (digits2_pos p) - 1)) by lia.
    rewrite Z.pow_succ_r by lia. lia.
  - rewrite Pos2Z.inj_succ, Z.pow_succ_r by lia.
    replace (Z.succ (Zpos (digits2_pos p)) - 1) with (Z.succ (Zpos (digits2_pos p) - 1)) by lia.
    rewrite Z.pow_succ_r by lia. lia.
  - simpl. lia.
Qed.

Lemma digits2_pos_le (m : positive) (k : Z) :
  Zpos m < 2 ^ k → Zpos (digits2_pos m) ≤ k.
Proof.
  intros Hm. destruct (digits2_pos_bounds m) as [Hlo _].
  destruct (Z.le_gt_cases (Zpos (digits2_pos m)) k) as [| Hgt]; [done |].
  exfalso. assert (2 ^ k ≤ 2 ^ (Zpos (digits2_pos m) - 1)) by (apply Z.pow_le_mono_r; lia).
  lia.
Qed.

Lemma iter_xO_value (m k : positive) : Zpos (Pos.iter xO m k) = Zpos m * 2 ^ Zpos k.
Proof.
  induction k as [| k IH] using Pos.peano_ind.
  - simpl. lia.
  - rewrite Pos.iter_succ, Pos2Z.inj_succ, Z.pow_succ_r by lia.
    rewrite Pos2Z.inj_xO, IH. lia.
Qed.

Lemma iter_xO_digits (m k : positive) :
  digits2_pos (Pos.iter xO m k) = (digits2_pos m + k)%positive.
Proof.
  induction k as [| k IH] using Pos.peano_ind.
  - simpl. lia.
  - rewrite Pos.iter_succ. cbn [digits2_pos]. rewrite IH. lia.
Qed.

Lemma float_of_Zpos (m : positive) :
  Zpos m < 2 ^ 53 →
  float_of_Z (Zpos m) = S754_finite false (mantissa53 m) (Zpos (digits2_pos m) - 53).
Proof.
  intros Hm. pose proof (digits2_pos_le m 53 Hm) as Hd.
  unfold float_of_Z, binary_normalize, binary_round, shl_align, mantissa53, fexp, emin.
  replace (Z.max (Zpos (digits2_pos m) + 0 - 53) (3 - 1024 - 53))
    with (Zpos (digits2_pos m) - 53) by lia.
  replace (Zpos (digits2_pos m) - 53 - 0) with (- (53 - Zpos (digits2_pos m))) by lia.
  assert (Hdig : digits2_pos (match (53 - Zpos (digits2_pos m))%Z with
                              | Zpos d => Pos.iter xO m d | _ => m end) = 53%positive).
  { destruct (53 - Zpos (digits2_pos m)) as [| d | d] eqn:Hk; [lia | | lia].
    rewrite iter_xO_digits. lia. }
  assert (Hpair : (let '(mz, ez) :=
      match - (53 - Zpos (digits2_pos m)) with
      | Z.neg d => (Pos.iter xO m d, Zpos (digits2_pos m) - 53)
      | _ => (m, 0)
      end in binary_round_aux 53 1024 false (Zpos mz) ez loc_Exact)
    = binary_round_aux 53 1024 false
        (Zpos (match (53 - Zpos (digits2_pos m))%Z with Zpos d => Pos.iter xO m d | _ => m end))
        (Zpos (digits2_pos m) - 53) loc_Exact).
  { destruct (53 - Zpos (digits2_pos m)) as [| d | d] eqn:Hk; cbn [Z.opp]; [| reflexivity | lia].
    f_equal. lia. }
  rewrite Hpair. clear Hpair.
  set (mz := match (53 - Zpos (digits2_pos m))%Z with Zpos d => Pos.iter xO m d | _ => m end) in *.
  set (ez := Zpos (digits2_pos m) - 53) in *.
  assert (Hez : -52 ≤ ez ≤ 0) by (subst ez; lia).
  unfold binary_round_aux, shr_fexp, fexp, emin. cbn [Zdigits2]. rewrite Hdig.
  replace (Z.max (53 + ez - 53) (3 - 1024 - 53) - ez) with 0 by lia.
  cbn [shr shr_record_of_loc shr_m loc_of_shr_record round_nearest_even Zdigits2].
  rewrite Hdig.
  replace (Z.max (53 + ez - 53) (3 - 1024 - 53) - ez) with 0 by lia.
  cbn [shr shr_record_of_loc shr_m].
  destruct (ez <=? 1024 - 53) eqn:Hle; [reflexivity | lia].
Qed.

Lemma mantissa53_value (m : positive) :
  Zpos m < 2 ^ 53 →
  Zpos (mantissa53 m) = Zpos m * 2 ^ (53 - Zpos (digits2_pos m)).
Proof.
  intros Hm. pose proof (digits2_pos_le m 53 Hm) as Hd. unfold mantissa53.
  destruct (53 - Zpos (digits2_pos m))%Z as [| d | d] eqn:Hk; [simpl; lia | | lia].
  apply iter_xO_value.
Qed.

(** Below 2^53 the binary64 number of an integer is that integer. *)
Lemma py_int_float_of_Z (n : Z) : 0 ≤ n < 2 ^ 53 → py_int (float_of_Z n) = Ok n.
Proof.
  intros [Hlo Hhi]. destruct n as [| m | m]; [reflexivity | | lia].
  rewrite (float_of_Zpos m Hhi). cbn [py_int]. f_equal.
  pose proof (digits2_pos_le m 53 Hhi) as Hd.
  rewrite (mantissa53_value m Hhi).
  replace (Zpos (digits2_pos m) - 53) with (- (53 - Zpos (digits2_pos m))) by lia.
  rewrite Z.shiftl_opp_r, Z.shiftr_div_pow2 by lia.
  apply Z.div_mul. apply Z.pow_nonzero; lia.
Qed.

(** Below 2^53 the order of the binary64 numbers is the order of the
    integers. *)
Lemma float_le_of_Z (a b : Z) :
  0 ≤ a < 2 ^ 53 → 0 ≤ b < 2 ^ 53 →
  float_le (float_of_Z a) (float_of_Z b) = (a <=? b).
Proof.
  intros [Ha0 Ha] [Hb0 Hb].
  destruct a as [| a | a], b as [| b | b]; try lia; try reflexivity.
  - rewrite (float_of_Zpos b Hb). reflexivity.
  - rewrite (float_of_Zpos a Ha). reflexivity.
  - rewrite (float_of_Zpos a Ha), (float_of_Zpos b Hb).
    unfold float_le, SFleb, SFcompare.
    pose proof (digits2_pos_bounds a) as [Ha1 Ha2].
    pose proof (digits2_pos_bounds b) as [Hb1 Hb2].
    pose proof (digits2_pos_le a 53 Ha) as Hda.
    pose proof (digits2_pos_le b 53 Hb) as Hdb.
    destruct (Z.compare_spec (Zpos (digits2_pos a) - 53) (Zpos (digits2_pos b) - 53))
      as [Heq | Hlt | Hgt].
    + change (Pos.compare_cont Eq (mantissa53 a) (mantissa53 b))
        with (Zpos (mantissa53 a) ?= Zpos (mantissa53 b)).
      rewrite (mantissa53_value a Ha), (mantissa53_value b Hb).
      replace (Zpos (digits2_pos b)) with (Zpos (digits2_pos a)) by lia.
      assert (Hpow : 0 < 2 ^ (53 - Zpos (digits2_pos a))) by (apply Z.pow_pos_nonneg; lia).
      unfold Z.leb.
      rewrite <- (Zmult_compare_compat_r (Zpos a) (Zpos b) _ ) by lia.
      reflexivity.
    + assert (2 ^ Zpos (digits2_pos a) ≤ 2 ^ (Zpos (digits2_pos b) - 1))
        by (apply Z.pow_le_mono_r; lia).
      symmetry. apply Z.leb_le. lia.
    + assert (2 ^ Zpos (digits2_pos b) ≤ 2 ^ (Zpos (digits2_pos a) - 1))
        by (apply Z.pow_le_mono_r; lia).
      symmetry. apply Z.leb_gt. lia.
Qed.

Lemma float_ge_of_Z (a b : Z) :
  0 ≤ a < 2 ^ 53 → 0 ≤ b < 2 ^ 53 →
  float_ge (float_of_Z a) (float_of_Z b) = (b <=? a).
Proof. intros Ha Hb. by apply float_le_of_Z. Qed.

(** ** Text *)

Lemma isspace_not_decimal (c : char) : isspace c = true → todecimal c = None.
Proof.
  unfold isspace. rewrite existsb_exists. intros (w & Hin & Heq).
  apply N.eqb_eq in Heq. subst w. unfold whitespace in Hin. simpl in Hin.
  repeat (destruct Hin as [<- | Hin]; [reflexivity |]). contradiction.
Qed.

Lemma lstrip_split (s : str) :
  ∃ blanks, s = blanks ++ lstrip s ∧ Forall (fun c => isspace c = true) blanks.
Proof.
  induction s as [| c s (blanks & Hs & Hb)]; simpl.
  - exists []. split; [reflexivity | constructor].
  - destruct (isspace c) eqn:Hc.
    + exists (c :: blanks). split; [simpl; congruence | by constructor].
    + exists []. split; [reflexivity | constructor].
Qed.

Lemma rstrip_split (s : str) :
  ∃ blanks, s = rstrip s ++ blanks ∧ Forall (fun c => isspace c = true) blanks.
Proof.
  unfold rstrip. destruct (lstrip_split (rev s)) as (blanks & Hs & Hb).
  exists (rev blanks). split.
  - rewrite <- rev_app_distr, <- Hs. by rewrite rev_involutive.
  - apply Forall_forall. intros c Hc. rewrite Forall_forall in Hb.
    apply Hb. apply list_elem_of_In. rewrite in_rev.
    by apply list_elem_of_In.
Qed.

Lemma digits_of_blanks (blanks : str) :
  Forall (fun c => isspace c = true) blanks → digits_of blanks = [].
Proof.
  unfold digits_of. induction 1 as [| c blanks Hc _ IH]; simpl; [reflexivity |].
  by rewrite (isspace_not_decimal c Hc).
Qed.

Lemma digits_of_app (s t : str) : digits_of (s ++ t) = digits_of s ++ digits_of t.
Proof. apply omap_app. Qed.

Lemma digits_of_strip (s : str) : digits_of (strip s) = digits_of s.
Proof.
  unfold strip.
  destruct (lstrip_split s) as (front & Hf & Hfb).
  destruct (rstrip_split (lstrip s)) as (back & Hb & Hbb).
  rewrite Hf at 2. rewrite Hb at 2.
  rewrite !digits_of_app, (digits_of_blanks front), (digits_of_blanks back) by done.
  by rewrite app_nil_r.
Qed.

Lemma mapM_todecimal_sub (s : str) :
  mapM todecimal (re_sub_nondigit s) = Some (digits_of s).
Proof.
  unfold re_sub_nondigit, digits_of, isdecimal.
  induction s as [| c s IH]; [reflexivity |].
  rewrite filter_cons. simpl. destruct (todecimal c) as [d |] eqn:Hc.
  - rewrite decide_True by done. simpl. rewrite Hc, IH. reflexivity.
  - rewrite decide_False by done. exact IH.
Qed.

Lemma re_sub_nondigit_nil (s : str) : re_sub_nondigit s = [] ↔ digits_of s = [].
Proof.
  pose proof (mapM_todecimal_sub s) as H. split; intros E.
  - rewrite E in H. by injection H.
  - rewrite E in H. destruct (re_sub_nondigit s) as [| c t]; [reflexivity |].
    simpl in H. destruct (todecimal c); simpl in H; [| discriminate].
    destruct (mapM todecimal t); simpl in H; discriminate.
Qed.

Lemma todecimal_in_range (zeros : list N) (c : char) (d : Z) :
  todecimal_in zeros c = Some d → 0 ≤ d.
Proof.
  induction zeros as [| z zeros IH]; simpl; [done |].
  destruct ((z <=? c)%N && (c <? z + 10)%N); [| exact IH].
  intros [= <-]. lia.
Qed.

Lemma digits_of_nonneg (s : str) : Forall (fun d => 0 ≤ d) (digits_of s).
Proof.
  unfold digits_of. induction s as [| c s IH]; simpl; [constructor |].
  destruct (todecimal c) as [d |] eqn:Hc; [| exact IH].
  constructor; [| exact IH]. by apply (todecimal_in_range decimal_zeros c).
Qed.

Lemma fold_decimal_nonneg (ds : list Z) (acc : Z) :
  Forall (fun d => 0 ≤ d) ds → 0 ≤ acc →
  0 ≤ fold_left (fun acc d => 10 * acc + d) ds acc.
Proof.
  intros Hds. revert acc. induction Hds as [| d ds Hd _ IH]; intros acc Hacc; simpl; [done |].
  apply IH. lia.
Qed.

Lemma decimal_value_nonneg (s : str) : 0 ≤ decimal_value (digits_of s).
Proof. apply fold_decimal_nonneg; [apply digits_of_nonneg | done]. Qed.

(** ** The item extractor *)

Lemma py_get_dict (d : gmap str json) (key : str) (dflt : json) :
  py_get (JDict d) key dflt = Ok (default dflt (d !! key)).
Proof. reflexivity. Qed.

Ltac get_step :=
  repeat first [ rewrite py_get_dict
               | rewrite lookup_empty
               | progress cbn [default mbind result_bind id] ].

(** C1. For every decoded envelope [safe_get_items] returns, without
    raising, the list the specification describes: the empty list when
    the path response, body, items is absent or its value is false-like;
    the items themselves when they are a list; the value under [item]
    when the items are a mapping and that value is a list; the list of
    that one value when it is a mapping; the empty list otherwise. *)
Theorem safe_get_items_extracted (envelope : json) :
  safe_get_items envelope = Ok (extracted_items envelope).
Proof.
  unfold safe_get_items, safe_get_items_body, extracted_items.
  destruct envelope as [| | | | | | d]; try reflexivity.
  cbn [descend]. get_step.
  destruct (d !! py "response") as [response |]; get_step.
  2: reflexivity.
  destruct response as [| | | | | | r]; try reflexivity.
  get_step.
  destruct (r !! py "body") as [body |]; get_step.
  2: reflexivity.
  destruct body as [| | | | | | b]; try reflexivity.
  get_step.
  destruct (b !! py "items") as [items |]; get_step; [| reflexivity].
  destruct (truthy items) eqn:Ht; cbn [negb try_except]; [| reflexivity].
  destruct items as [| | | | | l | m]; try reflexivity.
  get_step.
  destruct (m !! py "item") as [item |]; get_step; [| reflexivity].
  destruct item; reflexivity.
Qed.

(** ** The money normalizer *)

Lemma py_float_digits (s : str) :
  digits_of s ≠ [] →
  py_float (re_sub_nondigit s) = Ok (float_of_Z (decimal_value (digits_of s))).
Proof.
  intros Hne. unfold py_float. rewrite mapM_todecimal_sub.
  destruct (digits_of s); [done | reflexivity].
Qed.

Lemma parse_money_normalized (val : option str) :
  parse_money val = Ok (normalized_money val).
Proof.
  destruct val as [v |]; [| reflexivity].
  unfold parse_money, normalized_money.
  rewrite <- (digits_of_strip v).
  destruct (strip v) as [| c s] eqn:Hs; [reflexivity |].
  destruct (re_sub_nondigit (c :: s)) as [| c' s'] eqn:Hd.
  - apply re_sub_nondigit_nil in Hd. by rewrite Hd.
  - rewrite <- Hd. rewrite py_float_digits.
    + cbn [mbind result_bind try_except]. unfold money_of_digits.
      destruct (digits_of (c :: s)) eqn:Hds; [| reflexivity].
      apply re_sub_nondigit_nil in Hds. congruence.
    + intros Hds. apply re_sub_nondigit_nil in Hds. congruence.
Qed.

Lemma parse_money_no_digit (v : str) :
  digits_of v = [] → parse_money (Some v) = Ok None.
Proof. intros Hv. rewrite parse_money_normalized. simpl. by rewrite Hv. Qed.

Lemma parse_money_digits (v : str) :
  digits_of v ≠ [] →
  parse_money (Some v) = Ok (Some (float_of_Z (decimal_value (digits_of v)))).
Proof.
  intros Hv. rewrite parse_money_normalized. simpl.
  unfold money_of_digits. by destruct (digits_of v).
Qed.

Lemma parse_money_exact (v : str) :
  digits_of v ≠ [] → decimal_value (digits_of v) < 2 ^ 53 →
  ∃ x, parse_money (Some v) = Ok (Some x) ∧ py_int x = Ok (decimal_value (digits_of v)).
Proof.
  intros Hne Hlt. exists (float_of_Z (decimal_value (digits_of v))). split.
  - by apply parse_money_digits.
  - apply py_int_float_of_Z. split; [apply decimal_value_nonneg | done].
Qed.

(** C2. [parse_money] never raises; it returns no value when the input
    is [None], empty, or without any digit once the other characters are
    removed, and else the number read from the digits that remain: the
    nearest binary64 number, which below 2^53 is the integer itself.
    The empty text, [None] and blanks give no value, "1,234,567" gives
    1234567, "  9 8 7  " gives 987 and "abc" gives no value. *)
Theorem parse_money_spec :
  (∀ val : option str, parse_money val = Ok (normalized_money val)) ∧
  (∀ v : str, digits_of v = [] → parse_money (Some v) = Ok None) ∧
  (∀ v : str, digits_of v ≠ [] →
     parse_money (Some v) = Ok (Some (float_of_Z (decimal_value (digits_of v))))) ∧
  (∀ v : str, digits_of v ≠ [] → decimal_value (digits_of v) < 2 ^ 53 →
     ∃ x, parse_money (Some v) = Ok (Some x) ∧ py_int x = Ok (decimal_value (digits_of v))) ∧
  parse_money (Some (py "")) = Ok None ∧
  parse_money None = Ok None ∧
  parse_money (Some (py "   ")) = Ok None ∧
  parse_money (Some (py "1,234,567")) = Ok (Some (float_of_Z 1234567)) ∧
  parse_money (Some (py "  9 8 7  ")) = Ok (Some (float_of_Z 987)) ∧
  parse_money (Some (py "abc")) = Ok None ∧
  py_int (float_of_Z 1234567) = Ok 1234567 ∧
  py_int (float_of_Z 987) = Ok 987.
Proof.
  split; [exact parse_money_normalized |].
  split; [exact parse_money_no_digit |].
  split; [exact parse_money_digits |].
  split; [exact parse_money_exact |].
  repeat split; vm_compute; reflexivity.
Qed.

Lemma parse_money_spec_witness :
  parse_money (Some (py "abc")) = Ok None ∧
  parse_money (Some (py "1,234,567")) = Ok (Some (float_of_Z 1234567)) ∧
  ∃ x, parse_money (Some (py "1,234,567")) = Ok (Some x) ∧ py_int x = Ok 1234567.
Proof.
  destruct parse_money_spec as (_ & Hnone & Hsome & Hexact & _).
  split; [| split].
  - apply Hnone. by vm_compute.
  - apply (Hsome (py "1,234,567")). by vm_compute.
  - apply (Hexact (py "1,234,567")); by vm_compute.
Defined.





(** ** The price column *)

Lemma ascii_digit_todecimal (c : char) (d : Z) :
  ascii_digit c = Some d → todecimal c = Some d.
Proof.
  unfold ascii_digit, todecimal, decimal_zeros. cbn [todecimal_in].
  change (48 + 10)%N with 58%N.
  by destruct ((48 <=? c)%N && (c <? 58)%N).
Qed.




Lemma elem_of_columns_frame (records : list (gmap str cell)) (key : str) :
  key ∈ columns (frame_of_records records) ↔ ∃ r, r ∈ records ∧ is_Some (r !! key).
Proof.
  unfold frame_of_records. cbn [columns].
  rewrite elem_of_elements, elem_of_union_list. split.
  - intros (X & HX & Hk). apply list_elem_of_fmap in HX as (r & -> & Hr).
    exists r. split; [done |]. by apply elem_of_dom.
  - intros (r & Hr & Hk). exists (dom r). split.
    + apply list_elem_of_fmap. by exists r.
    + by apply elem_of_dom.
Qed.

Lemma price_of_missing : price_of_text (astype_str None) = float_of_Z 0.
Proof. by vm_compute. Qed.


Lemma presmpt_num_of_frame (records : list (gmap str cell)) (r : gmap str cell) :
  r ∈ records →
  presmpt_num_of (frame_of_records records) r
  = price_of_text (astype_str (r !! py "presmptPrce")).
Proof.
  intros Hr. unfold presmpt_num_of. case_bool_decide as Hcol; [reflexivity |].
  destruct (r !! py "presmptPrce") as [c |] eqn:Hc.
  - exfalso. apply Hcol. apply elem_of_columns_frame. exists r. by rewrite Hc.
  - by rewrite price_of_missing.
Qed.



(** ** The price filter *)

Lemma filter_min_max_within (min_val max_val : option float) (rs : list priced) :
  filter_max max_val (filter_min min_val rs)
  = filter (fun r => within min_val max_val r = true) rs.
Proof.
  unfold filter_max, filter_min, within.
  destruct min_val as [lo |], max_val as [hi |]; cbn [andb].
  - rewrite list_filter_filter. apply list_filter_iff. intros r.
    rewrite andb_true_iff. tauto.
  - apply list_filter_iff. intros r. rewrite andb_true_r. tauto.
  - reflexivity.
  - induction rs as [| r rs IH]; [reflexivity |].
    rewrite filter_cons_True by reflexivity. by rewrite <- IH.
Qed.




(** The table [search_bids] makes of a frame is the view of the rows in
    the price range that pass the contract-method filter, and the empty
    table when there is none. *)
Lemma shape_frame_table (a : args) (df : DataFrame) (log_lines : log) :
  (shape_frame a df log_lines).2
  = match kept_rows a df with
    | [] => Ok empty_frame
    | rs => make_view (columns df) rs
    end.
Proof.
  unfold shape_frame, kept_rows.
  rewrite !parse_money_normalized. cbn [eval].
  rewrite filter_min_max_within.
  destruct (filter_contract _ _ _) as [rs logged]. cbn [fst].
  destruct rs as [| r rs]; [reflexivity |].
  unfold eval. by destruct (make_view (columns df) (r :: rs)).
Qed.

(** ** The contract-method filter *)

Lemma prefix_of_spec (needle s : str) :
  prefix_of needle s = true ↔ ∃ rest, s = needle ++ rest.
Proof.
  revert s. induction needle as [| a needle IH]; intros s; simpl.
  - split; [by exists s | done].
  - destruct s as [| b s].
    + split; [done | by intros (rest & [=])].
    + rewrite andb_true_iff, N.eqb_eq, IH. split.
      * intros (-> & rest & ->). by exists rest.
      * intros (rest & [= -> ->]). split; [done | by exists rest].
Qed.

Lemma contains_spec (s needle : str) :
  contains s needle = true ↔ ∃ before after, s = before ++ needle ++ after.
Proof.
  induction s as [| c s IH]; simpl; rewrite orb_true_iff, prefix_of_spec.
  - split.
    + intros [(rest & ->) | [=]]. by exists [], rest.
    + intros (before & after & Hs). left.
      destruct before; [by exists after |]. discriminate.
  - rewrite IH. split.
    + intros [(rest & ->) | (before & after & ->)].
      * by exists [], rest.
      * by exists (c :: before), after.
    + intros (before & after & Hs). destruct before as [| c' before].
      * left. by exists after.
      * right. injection Hs as -> ->. by exists before, after.
Qed.

Lemma filter_contract_absent (cols : list str) (mode : str) (rs : list priced) :
  py "cntrctCnclsMthdNm" ∉ cols →
  filter_contract cols mode rs
  = (rs, [Text (py "⚠ cntrctCnclsMthdNm 컬럼 없음 (계약방법 필터 미적용)")]).
Proof. intros H. unfold filter_contract. by rewrite bool_decide_eq_false_2. Qed.

Lemma is_private_spec (r : priced) :
  is_private r = true ↔
  ∃ before after,
    astype_str (cells r !! py "cntrctCnclsMthdNm") = before ++ py "수의" ++ after.
Proof. apply contains_spec. Qed.

Lemma is_private_missing (r : priced) :
  cells r !! py "cntrctCnclsMthdNm" = None → is_private r = false.
Proof. intros H. unfold is_private. rewrite H. by vm_compute. Qed.

(** C5. When no record has the contract-method field the step keeps all
    the records and logs that the filter was not applied.  Otherwise
    "only_private" keeps exactly the records whose contract-method text
    contains "수의", "exclude_private" exactly those whose text does not,
    and any other choice keeps all.  A record that lacks the field is
    removed by the first and kept by the second.  Of "일반경쟁", "수의계약"
    and "수의계약(소액)" the first choice keeps the last two, the second
    the first one, and "all" the three. *)
Theorem contract_filter_spec :
  (∀ (records : list (gmap str cell)) (mode : str) (rs : list priced),
     (∀ r, r ∈ records → r !! py "cntrctCnclsMthdNm" = None) →
     filter_contract (columns (frame_of_records records)) mode rs
     = (rs, [Text (py "⚠ cntrctCnclsMthdNm 컬럼 없음 (계약방법 필터 미적용)")])) ∧
  (∀ (cols : list str) (rs : list priced),
     py "cntrctCnclsMthdNm" ∈ cols →
     filter_contract cols (py "only_private") rs
     = (filter (fun r => is_private r = true) rs, [Text (py "✅ 계약방법 필터: 수의계약만")]) ∧
     filter_contract cols (py "exclude_private") rs
     = (filter (fun r => is_private r = false) rs, [Text (py "✅ 계약방법 필터: 수의계약 제외")]) ∧
     (∀ mode, mode ≠ py "only_private" → mode ≠ py "exclude_private" →
        filter_contract cols mode rs = (rs, [Text (py "✅ 계약방법 필터: 전체")]))) ∧
  (∀ (cols : list str) (rs : list priced) (r : priced),
     py "cntrctCnclsMthdNm" ∈ cols →
     (r ∈ (filter_contract cols (py "only_private") rs).1 ↔
        r ∈ rs ∧ ∃ before after,
          astype_str (cells r !! py "cntrctCnclsMthdNm") = before ++ py "수의" ++ after) ∧
     (r ∈ (filter_contract cols (py "exclude_private") rs).1 ↔
        r ∈ rs ∧ ¬ ∃ before after,
          astype_str (cells r !! py "cntrctCnclsMthdNm") = before ++ py "수의" ++ after)) ∧
  (∀ r : priced, cells r !! py "cntrctCnclsMthdNm" = None → is_private r = false) ∧
  (let cols := [py "cntrctCnclsMthdNm"] in
   let rs := [with_method "일반경쟁"; with_method "수의계약"; with_method "수의계약(소액)";
              without_method] in
   (filter_contract cols (py "only_private") rs).1
   = [with_method "수의계약"; with_method "수의계약(소액)"] ∧
   (filter_contract cols (py "exclude_private") rs).1
   = [with_method "일반경쟁"; without_method] ∧
   (filter_contract cols (py "all") rs).1 = rs).
Proof.
  split.
  { intros records mode rs Hnone. apply filter_contract_absent.
    rewrite elem_of_columns_frame. intros (r & Hr & Hsome).
    rewrite (Hnone r Hr) in Hsome. by destruct Hsome. }
  split.
  { intros cols rs Hcol. unfold filter_contract.
    rewrite (bool_decide_eq_true_2 _ Hcol). repeat split.
    intros mode Hne1 Hne2. by rewrite !bool_decide_eq_false_2. }
  split.
  { intros cols rs r Hcol. unfold filter_contract.
    rewrite (bool_decide_eq_true_2 _ Hcol). cbn [bool_decide fst].
    rewrite <- is_private_spec. split.
    - rewrite bool_decide_eq_true_2 by reflexivity. cbn [fst].
      rewrite list_elem_of_filter. tauto.
    - rewrite bool_decide_eq_false_2 by (by vm_compute).
      rewrite bool_decide_eq_true_2 by reflexivity. cbn [fst].
      rewrite list_elem_of_filter, not_true_iff_false. tauto. }
  split; [exact is_private_missing |].
  repeat split; by vm_compute.
Qed.

Lemma contract_filter_spec_witness :
  filter_contract (columns (frame_of_records [∅])) (py "only_private") [without_method]
  = ([without_method], [Text (py "⚠ cntrctCnclsMthdNm 컬럼 없음 (계약방법 필터 미적용)")]) ∧
  with_method "수의계약"
  ∈ (filter_contract [py "cntrctCnclsMthdNm"] (py "only_private")
       [with_method "일반경쟁"; with_method "수의계약"]).1 ∧
  is_private without_method = false.
Proof.
  destruct contract_filter_spec as (Habsent & _ & Hin & Hmissing & _).
  split; [| split].
  - apply Habsent. intros r Hr. apply list_elem_of_singleton in Hr as ->.
    apply lookup_empty.
  - apply Hin.
    + apply list_elem_of_here.
    + split.
      * apply list_elem_of_further, list_elem_of_here.
      * exists [], (py "계약"). by vm_compute.
  - apply Hmissing. apply lookup_empty.
Defined.

(** ** The pipeline *)

Section PipelineFacts.

Variable other : list json → result DataFrame.


Lemma outer_handler_raise (log_lines : log) (e : exn) :
  outer_handler (log_lines, Raise e) = Ok (log_lines ++ [line_exception e], empty_frame).
Proof. reflexivity. Qed.

Lemma run_no_key (a : args) (server : request → result response) :
  nonempty (service_key a) = false →
  run server (search_bids other a) = (Ok ([line_no_key], empty_frame), []).
Proof. intros H. unfold search_bids. by rewrite H. Qed.

Lemma run_with_key (a : args) (server : request → result response) :
  nonempty (service_key a) = true →
  run server (search_bids other a)
  = (outer_handler (try_block other a (server (request_of a))), [request_of a]).
Proof. intros H. unfold search_bids. by rewrite H. Qed.


Lemma try_block_data (a : args) (resp : response) (data : json) :
  status_code resp = 200 → json_of resp = Ok data →
  try_block other a (Ok resp) = shape_data other a data [line_requested].
Proof.
  intros Hs Hj. unfold try_block, eval.
  rewrite bool_decide_eq_false_2 by (by intros []). by rewrite Hj.
Qed.


Lemma shape_data_rejected (a : args) (data code msg : json) (log_lines : log) :
  read_header data = Ok (code, msg) → eq_str code (py "00") = false →
  shape_data other a data log_lines
  = (log_lines ++ [line_api code msg] ++ [line_rejected], Ok empty_frame).
Proof.
  intros Hh Hc. unfold shape_data, eval. rewrite Hh, Hc. cbn [negb].
  by rewrite <- app_assoc.
Qed.

Lemma shape_data_no_items (a : args) (data code msg : json) (log_lines : log) :
  read_header data = Ok (code, msg) → eq_str code (py "00") = true →
  safe_get_items data = Ok [] →
  shape_data other a data log_lines
  = (log_lines ++ [line_api code msg] ++ [line_no_data], Ok empty_frame).
Proof.
  intros Hh Hc Hi. unfold shape_data, eval.
  rewrite Hh, Hc, Hi. cbn [negb].
  by rewrite <- app_assoc.
Qed.

Lemma shape_data_items (a : args) (data code msg item : json) (items : list json)
      (log_lines : log) :
  read_header data = Ok (code, msg) → eq_str code (py "00") = true →
  safe_get_items data = Ok (item :: items) →
  shape_data other a data log_lines
  = eval (log_lines ++ [line_api code msg]) (json_normalize other (item :: items))
         (fun df => shape_frame a df (log_lines ++ [line_api code msg])).
Proof.
  intros Hh Hc Hi. unfold shape_data, eval at 1 2.
  by rewrite Hh, Hc, Hi.
Qed.


Lemma eq_str_false (code : json) (s : str) : code ≠ JStr s → eq_str code s = false.
Proof.
  intros Hne. destruct code as [| | | | s' | |]; try reflexivity.
  simpl. apply bool_decide_eq_false_2. congruence.
Qed.

Lemma eq_str_true (s : str) : eq_str (JStr s) s = true.
Proof. simpl. by apply bool_decide_eq_true_2. Qed.

(** C7. When the body is decoded and the result code of its header is
    not the text "00", [search_bids] returns the empty table and a log
    that shows the result code and the message of the header; the
    items are looked at only when the code is "00". *)
Theorem rejected_code_returns_empty (a : args) (server : request → result response)
        (resp : response) (data code msg : json) :
  nonempty (service_key a) = true →
  server (request_of a) = Ok resp →
  status_code resp = 200 →
  json_of resp = Ok data →
  read_header data = Ok (code, msg) →
  (code ≠ JStr (py "00") →
     run server (search_bids other a)
     = (Ok ([line_requested; line_api code msg; line_rejected], empty_frame),
        [request_of a])) ∧
  (code = JStr (py "00") → safe_get_items data = Ok [] →
     run server (search_bids other a)
     = (Ok ([line_requested; line_api code msg; line_no_data], empty_frame),
        [request_of a])) ∧
  (code = JStr (py "00") → ∀ item items, safe_get_items data = Ok (item :: items) →
     run server (search_bids other a)
     = (outer_handler
          (eval [line_requested; line_api code msg] (json_normalize other (item :: items))
             (fun df => shape_frame a df [line_requested; line_api code msg])),
        [request_of a])).
Proof.
  intros Hkey Hanswer Hs Hj Hh.
  rewrite (run_with_key a server Hkey), Hanswer, (try_block_data a resp data Hs Hj).
  split; [| split].
  - intros Hc. by rewrite (shape_data_rejected a data code msg _ Hh (eq_str_false _ _ Hc)).
  - intros -> Hi.
    by rewrite (shape_data_no_items a data _ msg _ Hh (eq_str_true _) Hi).
  - intros -> item items Hi.
    by rewrite (shape_data_items a data _ msg item items _ Hh (eq_str_true _) Hi).
Qed.


End PipelineFacts.


Lemma rejected_code_returns_empty_witness :
  run (answering (envelope_of "03" "NODATA_ERROR" JNull))
      (search_bids no_other_shape (search_with "KEY" "" ""))
  = (Ok ([line_requested; line_api (JStr (py "03")) (JStr (py "NODATA_ERROR")); line_rejected],
         empty_frame),
     [request_of (search_with "KEY" "" "")]).
Proof.
  refine (proj1 (rejected_code_returns_empty no_other_shape (search_with "KEY" "" "")
                   (answering (envelope_of "03" "NODATA_ERROR" JNull))
                   (mkResponse 200 (py "") (Ok (envelope_of "03" "NODATA_ERROR" JNull)))
                   (envelope_of "03" "NODATA_ERROR" JNull)
                   (JStr (py "03")) (JStr (py "NODATA_ERROR")) _ _ _ _ _) _).
  - by vm_compute.
  - reflexivity.
  - reflexivity.
  - reflexivity.
  - by vm_compute.
  - vm_compute. intros [=].
Defined.



(** ** The parameters of the request *)

Lemma lookup_set_if_eq (cond : bool) (key value : str) (params : gmap str str) :
  set_if cond key value params !! key = if cond then Some value else params !! key.
Proof. unfold set_if. destruct cond; [apply lookup_insert_eq | reflexivity]. Qed.

Lemma lookup_set_if_ne (cond : bool) (key key' value : str) (params : gmap str str) :
  key ≠ key' → set_if cond key value params !! key' = params !! key'.
Proof. intros Hne. unfold set_if. destruct cond; [by apply lookup_insert_ne | reflexivity]. Qed.

Lemma nonempty_app_r (s t : str) : nonempty t = true → nonempty (s ++ t) = true.
Proof. destruct s, t; done. Qed.

Lemma nonempty_suffixed (s suffix : str) :
  nonempty suffix = true →
  nonempty (if nonempty s then remove_char 0x2D%N s ++ suffix else []) = nonempty s.
Proof. intros H. destruct (nonempty s); [by apply nonempty_app_r | reflexivity]. Qed.

(** Two keys written as literals differ. *)
Ltac key_ne :=
  let H := fresh in intros H; vm_compute in H; discriminate H.

Ltac lookup_params :=
  repeat first [ rewrite lookup_set_if_eq
               | rewrite lookup_set_if_ne by key_ne
               | rewrite lookup_insert_eq
               | rewrite lookup_insert_ne by key_ne
               | rewrite lookup_empty ].

(** What the request carries, parameter by parameter: the five
    parameters that are always there, and each of the five others under
    the test the code makes for it. *)
Lemma build_params_lookup (a : args) :
  build_params a !! py "serviceKey" = Some (service_key a) ∧
  build_params a !! py "pageNo" = Some (str_of_int (page_no a)) ∧
  build_params a !! py "numOfRows" = Some (str_of_int (num_rows a)) ∧
  build_params a !! py "inqryDiv" = Some (str_of_int (inqry_div a)) ∧
  build_params a !! py "type" = Some (py "json") ∧
  build_params a !! py "inqryBgnDt"
  = (if nonempty (normalize_date_str (start_date a))
     then Some (remove_char 0x2D%N (normalize_date_str (start_date a)) ++ py "0000")
     else None) ∧
  build_params a !! py "inqryEndDt"
  = (if nonempty (normalize_date_str (end_date a))
     then Some (remove_char 0x2D%N (normalize_date_str (end_date a)) ++ py "2359")
     else None) ∧
  build_params a !! py "bidNtceNm"
  = (if nonempty (bid_name a) then Some (strip (bid_name a)) else None) ∧
  build_params a !! py "indstrytyNm"
  = (if nonempty (industry_name a) then Some (strip (industry_name a)) else None) ∧
  build_params a !! py "prtcptLmtRgnCd"
  = (if nonempty (strip (region_code a))
     then Some (if bool_decide (length (strip (region_code a)) = 1%nat)
                then py "0" ++ strip (region_code a) else strip (region_code a))
     else None).
Proof.
  unfold build_params. rewrite !nonempty_suffixed by reflexivity.
  repeat split; lookup_params; try reflexivity.
  - by destruct (nonempty (normalize_date_str (start_date a))).
  - by destruct (nonempty (normalize_date_str (end_date a))).
Qed.

Lemma build_params_other (a : args) (key : str) :
  key ∉ always_keys ++ optional_keys → build_params a !! key = None.
Proof.
  unfold always_keys, optional_keys. cbn [app]. rewrite !not_elem_of_cons.
  intros (H1 & H2 & H3 & H4 & H5 & H6 & H7 & H8 & H9 & H10 & _).
  unfold build_params.
  rewrite !lookup_set_if_ne, !lookup_insert_ne by congruence.
  apply lookup_empty.
Qed.

(** C3, at a title keyword of one blank. The keyword is tested before
    it is trimmed: the parameter [bidNtceNm] is sent, with the empty
    text as its value.  The region code is trimmed before it is tested:
    a region code of one blank sends no parameter. *)
Theorem blank_keyword_is_sent :
  strip (bid_name (search_with "KEY" " " "")) = [] ∧
  build_params (search_with "KEY" " " "") !! py "bidNtceNm" = Some [] ∧
  (run unreachable (search_bids no_other_shape (search_with "KEY" " " ""))).2
  = [request_of (search_with "KEY" " " "")] ∧
  params (request_of (search_with "KEY" " " "")) !! py "bidNtceNm" = Some [] ∧
  build_params (search_with "KEY" "" " ") !! py "prtcptLmtRgnCd" = None.
Proof. repeat split; by vm_compute. Qed.

(** ** The pipeline from end to end *)

(** Two announcements, no price bound: two rows, the prices shown with
    commas, and a log with the result code, the message and the count. *)
Example two_announcements :
  ∃ table,
    (run (answering (envelope_of "00" "정상"
                       (JList [bid "도로 보수" "100,000,000" "일반경쟁";
                               bid "청사 증축" "500,000,000" "수의계약"])))
         (search_bids no_other_shape (search_with "KEY" "" ""))).1
    = Ok ([line_requested; line_api (JStr (py "00")) (JStr (py "정상"));
           [Text (py "✅ 계약방법 필터: 전체")]; line_count 2], table) ∧
    columns table = [py "공고명"; py "기초금액"; py "계약방법"] ∧
    (fun shown : gmap str cell => shown !! py "기초금액") <$> rows table
    = [Some (CStr (py "100,000,000")); Some (CStr (py "500,000,000"))].
Proof. eexists. split; [by vm_compute | split; by vm_compute]. Qed.

(** No items in the body: no data. *)
Example no_items :
  (run (answering (envelope_of "00" "정상" JNull))
       (search_bids no_other_shape (search_with "KEY" "" ""))).1
  = Ok ([line_requested; line_api (JStr (py "00")) (JStr (py "정상")); line_no_data],
        empty_frame).
Proof. by vm_compute. Qed.

(** Status 500: the status is logged and the body is not decoded. *)
Example server_error :
  (run (failing_with 500 "Internal Server Error")
       (search_bids no_other_shape (search_with "KEY" "" ""))).1
  = Ok ([line_requested; line_http_error 500], empty_frame).
Proof. by vm_compute. Qed.

(** A body that is not JSON: its first characters are logged. *)
Example not_json :
  (run (failing_with 200 "<html>")
       (search_bids no_other_shape (search_with "KEY" "" ""))).1
  = Ok ([line_requested; line_json_failed; [Text (py "<html>")]], empty_frame).
Proof. by vm_compute. Qed.

(** An item that is not an object: the exception of pandas is caught
    by the outer handler. *)
Example odd_item :
  (run (answering (envelope_of "00" "정상" (JList [JInt 3])))
       (search_bids no_other_shape (search_with "KEY" "" ""))).1
  = Ok ([line_requested; line_api (JStr (py "00")) (JStr (py "정상"));
         line_exception (OtherException (py "json_normalize"))], empty_frame).
Proof. by vm_compute. Qed.

(** The shapes of the envelope: no items, empty items, a list, one
    object, a list under [item]. *)
Example envelope_shapes :
  safe_get_items (JDict {[ py "response" := JDict {[ py "body" := JDict ∅ ]} ]}) = Ok [] ∧
  safe_get_items (envelope_of "00" "" (JList [])) = Ok [] ∧
  safe_get_items (envelope_of "00" "" (JStr (py ""))) = Ok [] ∧
  safe_get_items (envelope_of "00" "" (JList [JInt 1; JInt 2])) = Ok [JInt 1; JInt 2] ∧
  safe_get_items (envelope_of "00" "" (JDict {[ py "item" := JDict ∅ ]})) = Ok [JDict ∅] ∧
  safe_get_items (envelope_of "00" "" (JDict {[ py "item" := JList [JInt 1; JInt 2] ]}))
  = Ok [JInt 1; JInt 2] ∧
  safe_get_items (envelope_of "00" "" (JDict {[ py "item" := JStr (py "x") ]})) = Ok [] ∧
  safe_get_items (JDict ∅) = Ok [] ∧
  safe_get_items (JDict {[ py "response" := JDict {[ py "body" := JStr (py "x") ]} ]}) = Ok [] ∧
  safe_get_items (JList []) = Ok [] ∧
  safe_get_items (envelope_of "00" "" (JInt 7)) = Ok [].
Proof. repeat split; by vm_compute. Qed.

(* ================================================================== *)
(** * Part III. Further properties                                     *)
(* ================================================================== *)

(** ** Decimal text *)

Lemma mapM_ascii_digit_uint (d : Decimal.uint) :
  mapM ascii_digit (chars_of_uint d) = Some (uint_digits d).
Proof.
  unfold chars_of_uint.
  induction d; cbn [NilEmpty.string_of_uint list_ascii_of_string map mapM uint_digits];
    [reflexivity | rewrite IHd; reflexivity ..].
Qed.

Lemma fold_uint_digits (d a : Decimal.uint) :
  fold_left (fun acc k => 10 * acc + k) (uint_digits d) (Z.of_N (Unsigned.of_lu a))
  = Z.of_N (Unsigned.of_lu (Decimal.revapp d a)).
Proof.
  revert a. induction d; intros a; cbn [uint_digits fold_left Decimal.revapp];
    [reflexivity | rewrite <- IHd; f_equal; cbn [Unsigned.of_lu]; lia ..].
Qed.

Lemma decimal_value_uint (d : Decimal.uint) :
  decimal_value (uint_digits d) = Z.of_N (Pos.of_uint d).
Proof.
  unfold decimal_value. rewrite Unsigned.of_uint_alt.
  exact (fold_uint_digits d Decimal.Nil).
Qed.

Lemma str_of_int_pos (p : positive) : str_of_int (Zpos p) = chars_of_uint (Pos.to_uint p).
Proof.
  unfold str_of_int, chars_of_uint. cbn [Z.to_int NilZero.string_of_int].
  unfold NilZero.string_of_uint.
  pose proof (Unsigned.to_uint_nonnil p) as Hne.
  by destruct (Pos.to_uint p).
Qed.

(** The text of a natural number is made of ASCII digits that denote
    it. *)
Lemma str_of_int_digits (n : Z) :
  0 ≤ n →
  ∃ ds, mapM ascii_digit (str_of_int n) = Some ds ∧ ds ≠ [] ∧ decimal_value ds = n.
Proof.
  intros Hn. destruct n as [| p | p]; [| | lia].
  - exists [0]. by vm_compute.
  - exists (uint_digits (Pos.to_uint p)). rewrite str_of_int_pos, mapM_ascii_digit_uint.
    split; [reflexivity |]. split.
    + pose proof (Unsigned.to_uint_nonnil p) as Hne. by destruct (Pos.to_uint p).
    + by rewrite decimal_value_uint, DecimalPos.Unsigned.of_to.
Qed.

Lemma mapM_ascii_digit_all (s : str) (ds : list Z) :
  mapM ascii_digit s = Some ds →
  Forall (fun c => is_Some (ascii_digit c)) s ∧ digits_of s = ds ∧ re_sub_nondigit s = s.
Proof.
  revert ds. induction s as [| c s IH]; intros ds H.
  - injection H as <-. by repeat split.
  - cbn [mapM] in H. destruct (ascii_digit c) as [k |] eqn:Hc; [| discriminate].
    destruct (mapM ascii_digit s) as [ks |] eqn:Hs; [| discriminate].
    injection H as <-. destruct (IH ks eq_refl) as (Hall & Hd & Hr).
    pose proof (ascii_digit_todecimal c k Hc) as Ht.
    split; [constructor; [by eexists | done] |]. split.
    + unfold digits_of in *. cbn [omap list_omap]. by rewrite Ht, Hd.
    + unfold re_sub_nondigit in *. rewrite filter_cons_True; [by rewrite Hr |].
      unfold isdecimal. by rewrite Ht.
Qed.

Lemma filter_rev {A} (P : A → Prop) `{∀ x, Decision (P x)} (l : list A) :
  filter P (rev l) = rev (filter P l).
Proof.
  induction l as [| x l IH]; [reflexivity |].
  cbn [rev]. rewrite filter_app, IH, filter_cons.
  destruct (decide (P x)).
  - by rewrite filter_cons_True.
  - rewrite filter_cons_False by done. by rewrite filter_nil, app_nil_r.
Qed.

Lemma commas_step (a b c d : N) (more : list N) :
  commas (a :: b :: c :: d :: more) = a :: b :: c :: 0x2C%N :: commas (d :: more).
Proof. reflexivity. Qed.

Lemma commas_filter_bounded (P : N → Prop) `{∀ x, Decision (P x)} (n : nat) (ds : str) :
  ¬ P 0x2C%N → (length ds ≤ n)%nat → filter P (commas ds) = filter P ds.
Proof.
  intros Hcomma. revert ds. induction n as [| n IH]; intros ds Hlen.
  - destruct ds; [reflexivity | simpl in Hlen; lia].
  - destruct ds as [| a [| b [| c [| d more]]]]; try reflexivity.
    rewrite commas_step.
    change (a :: b :: c :: 44%N :: commas (d :: more))
      with ([a; b; c] ++ [44%N] ++ commas (d :: more)).
    change (a :: b :: c :: d :: more) with ([a; b; c] ++ d :: more).
    rewrite !filter_app, (filter_cons_False P 44%N) by done.
    rewrite IH by (simpl in *; lia). reflexivity.
Qed.

Lemma commas_filter (P : N → Prop) `{∀ x, Decision (P x)} (ds : str) :
  ¬ P 0x2C%N → filter P (commas ds) = filter P ds.
Proof. intros Hc. by apply (commas_filter_bounded P (length ds)). Qed.

Lemma format_thousands_digits (n : Z) :
  0 ≤ n → re_sub_nondigit (format_thousands n) = str_of_int n.
Proof.
  intros Hn. unfold format_thousands.
  destruct (Z.ltb_spec n 0) as [| _]; [lia |]. cbn [app].
  rewrite Z.abs_eq by done. unfold re_sub_nondigit.
  rewrite filter_rev, commas_filter by (by vm_compute).
  rewrite <- filter_rev, rev_involutive.
  destruct (str_of_int_digits n Hn) as (ds & Hds & _).
  by destruct (mapM_ascii_digit_all _ _ Hds) as (_ & _ & Hr).
Qed.

Lemma price_of_format_thousands (n : Z) :
  0 ≤ n → price_of_text (format_thousands n) = float_of_Z n.
Proof.
  intros Hn. unfold price_of_text, to_numeric_coerce.
  rewrite (format_thousands_digits n Hn).
  destruct (str_of_int_digits n Hn) as (ds & -> & Hne & <-).
  by destruct ds.
Qed.

Lemma parse_money_format_thousands (n : Z) :
  0 ≤ n → parse_money (Some (format_thousands n)) = Ok (Some (float_of_Z n)).
Proof.
  intros Hn. rewrite parse_money_normalized. cbn [normalized_money].
  destruct (str_of_int_digits n Hn) as (ds & Hds & Hne & Hval).
  destruct (mapM_ascii_digit_all _ _ Hds) as (_ & Hd & _).
  assert (Hdig : digits_of (format_thousands n) = ds).
  { rewrite <- Hd, <- (format_thousands_digits n Hn).
    unfold digits_of, re_sub_nondigit.
    generalize (format_thousands n). intros s.
    induction s as [| c s IH]; [reflexivity |].
    rewrite filter_cons. cbn [omap list_omap]. unfold isdecimal.
    destruct (todecimal c) eqn:Hc.
    - rewrite decide_True by done. cbn [omap list_omap]. by rewrite Hc, IH.
    - rewrite decide_False by done. exact IH. }
  rewrite Hdig. unfold money_of_digits. rewrite Hval. by destruct ds.
Qed.

(** ** Floats of natural numbers *)

Lemma shr_1_nonneg (mrs : shr_record) : 0 ≤ shr_m mrs → 0 ≤ shr_m (shr_1 mrs).
Proof.
  destruct mrs as [m r s]. cbn [shr_m]. intros Hm.
  destruct m as [| [p | p |] | p]; cbn; lia.
Qed.

Lemma iter_shr_1_nonneg (p : positive) (mrs : shr_record) :
  0 ≤ shr_m mrs → 0 ≤ shr_m (SpecFloat.iter_pos shr_1 p mrs).
Proof.
  revert mrs. induction p as [p IH | p IH |]; intros mrs Hm; cbn [SpecFloat.iter_pos].
  - apply IH, IH. by apply shr_1_nonneg.
  - by apply IH, IH.
  - by apply shr_1_nonneg.
Qed.

Lemma shr_fexp_nonneg (m e : Z) (l : location) :
  0 ≤ m → 0 ≤ shr_m (shr_fexp 53 1024 m e l).1.
Proof.
  intros Hm. unfold shr_fexp, shr.
  assert (H0 : 0 ≤ shr_m (shr_record_of_loc m l)) by (by destruct l as [| []]).
  destruct (fexp 53 1024 (Zdigits2 m + e) - e); cbn [fst]; [done | | done].
  by apply iter_shr_1_nonneg.
Qed.

Lemma round_nearest_even_nonneg (m : Z) (l : location) :
  0 ≤ m → 0 ≤ round_nearest_even m l.
Proof.
  intros Hm. destruct l as [| []]; cbn [round_nearest_even]; try lia.
  destruct (Z.even m); lia.
Qed.

Lemma binary_round_aux_nonneg (m e : Z) (l : location) :
  0 ≤ m → nonneg_float (binary_round_aux 53 1024 false m e l) = true.
Proof.
  intros Hm. unfold binary_round_aux.
  pose proof (shr_fexp_nonneg m e l Hm) as H1.
  destruct (shr_fexp 53 1024 m e l) as [mrs' e'] eqn:E1. cbn [fst] in H1.
  pose proof (shr_fexp_nonneg _ e' loc_Exact
                (round_nearest_even_nonneg _ (loc_of_shr_record mrs') H1)) as H2.
  destruct (shr_fexp 53 1024 (round_nearest_even (shr_m mrs') (loc_of_shr_record mrs'))
              e' loc_Exact) as [mrs'' e''] eqn:E2. cbn [fst] in H2.
  destruct (shr_m mrs'') as [| p | p]; [reflexivity | | lia].
  by destruct (e'' <=? 1024 - 53).
Qed.

Lemma float_of_Z_nonneg (n : Z) : 0 ≤ n → nonneg_float (float_of_Z n) = true.
Proof.
  intros Hn. destruct n as [| p | p]; [reflexivity | | lia].
  unfold float_of_Z, binary_normalize, binary_round.
  destruct (shl_align p 0 _) as [mz ez]. by apply binary_round_aux_nonneg.
Qed.

Lemma float_ge_zero (x : spec_float) :
  nonneg_float x = true → float_ge x (float_of_Z 0) = true.
Proof. destruct x as [s | [] | | [] m e]; by cbn. Qed.

(** ** The stages of the pipeline *)

Lemma mapM_result_length {A B} (f : A → result B) (l : list A) (l' : list B) :
  mapM f l = Ok l' → length l' = length l.
Proof.
  revert l'. induction l as [| x l IH]; intros l' H.
  - by injection H as <-.
  - cbn [mapM] in H. destruct (f x) as [y | e]; [| discriminate].
    cbn [mbind result_bind] in H.
    destruct (mapM f l) as [k | e]; [| discriminate].
    injection H as <-. cbn [length]. by rewrite (IH k eq_refl).
Qed.

Lemma mapM_result_ok {A B} (f : A → result B) (l : list A) :
  Forall (fun x => ∃ y, f x = Ok y) l → ∃ l', mapM f l = Ok l'.
Proof.
  induction 1 as [| x l [y Hy] _ [k Hk]]; [by exists [] |].
  exists (y :: k). cbn [mapM]. by rewrite Hy, Hk.
Qed.

Lemma filter_contract_line (cols : list str) (mode : str) (rs rs' : list priced) :
  (filter_contract cols mode rs).2 = (filter_contract cols mode rs').2.
Proof. unfold filter_contract. by repeat case_bool_decide. Qed.

Lemma shape_frame_exit (a : args) (df : DataFrame) (log_lines : log) :
  shape_frame a df log_lines
  = match kept_rows a df with
    | [] => (log_lines ++ filter_lines a df ++ [line_none_left], Ok empty_frame)
    | rs =>
        match make_view (columns df) rs with
        | Ok df_view =>
            (log_lines ++ filter_lines a df ++ [line_count (length (rows df_view))],
             Ok df_view)
        | Raise e => (log_lines ++ filter_lines a df, Raise e)
        end
    end.
Proof.
  unfold shape_frame, kept_rows, filter_lines.
  rewrite !parse_money_normalized. cbn [eval].
  rewrite <- filter_min_max_within.
  rewrite (filter_contract_line _ _ [] (filter_max (normalized_money (max_price a))
            (filter_min (normalized_money (min_price a)) (with_presmpt_num df)))).
  destruct (filter_contract _ _ _) as [rs logged]. cbn [fst snd].
  assert (Hlog : (match normalized_money (max_price a) with
                  | Some m => match normalized_money (min_price a) with
                              | Some m0 => log_lines ++ [line_min m0]
                              | None => log_lines
                              end ++ [line_max m]
                  | None => match normalized_money (min_price a) with
                            | Some m => log_lines ++ [line_min m]
                            | None => log_lines
                            end
                  end) ++ [logged]
                 = log_lines ++
                   match normalized_money (min_price a) with
                   | Some m => [line_min m] | None => [] end ++
                   match normalized_money (max_price a) with
                   | Some m => [line_max m] | None => [] end ++ [logged]).
  { destruct (normalized_money (min_price a)), (normalized_money (max_price a));
      cbn [app]; rewrite <- ?app_assoc; cbn [app]; by rewrite ?app_nil_r. }
  rewrite Hlog. clear Hlog.
  destruct rs as [| r rs].
  - by rewrite <- !app_assoc.
  - unfold eval. destruct (make_view (columns df) (r :: rs)); [| reflexivity].
    by rewrite <- !app_assoc.
Qed.

Lemma eq_str_eq (code : json) (s : str) : eq_str code s = true → code = JStr s.
Proof.
  destruct code as [| | | | s' | |]; try discriminate.
  simpl. intros H. apply bool_decide_eq_true_1 in H. by subst.
Qed.

Section FurtherPipelineFacts.

Variable other : list json → result DataFrame.

Lemma shape_frame_prefix (a : args) (df : DataFrame) (log_lines : log) :
  ∃ more, (shape_frame a df log_lines).1 = log_lines ++ more.
Proof.
  rewrite shape_frame_exit. destruct (kept_rows a df) as [| r rs]; [by eexists |].
  destruct (make_view _ _); by eexists.
Qed.

Lemma shape_data_prefix (a : args) (data : json) (log_lines : log) :
  ∃ more, (shape_data other a data log_lines).1 = log_lines ++ more.
Proof.
  unfold shape_data, eval.
  destruct (read_header data) as [[code msg] | e]; [| exists []; by rewrite app_nil_r].
  destruct (eq_str code (py "00")); cbn [negb].
  2: { eexists. cbn [fst]. by rewrite <- app_assoc. }
  destruct (safe_get_items data) as [[| item items] | e].
  - eexists. cbn [fst]. by rewrite <- app_assoc.
  - destruct (json_normalize other (item :: items)) as [df | e].
    + destruct (shape_frame_prefix a df (log_lines ++ [line_api code msg])) as [more ->].
      eexists. by rewrite <- app_assoc.
    + by eexists.
  - by eexists.
Qed.

Lemma try_block_prefix (a : args) (resp : response) :
  ∃ more, (try_block other a (Ok resp)).1 = line_requested :: more.
Proof.
  unfold try_block, eval. case_bool_decide; [by eexists |].
  destruct (json_of resp) as [data | e].
  - destruct (shape_data_prefix a data [line_requested]) as [more ->]. by eexists.
  - destruct e; by eexists.
Qed.

Lemma try_block_rows (a : args) (answer : result response)
      (log_lines : log) (table : DataFrame) :
  try_block other a answer = (log_lines, Ok table) → rows table ≠ [] →
  ∃ resp data msg item items df,
    answer = Ok resp ∧ status_code resp = 200 ∧ json_of resp = Ok data ∧
    read_header data = Ok (JStr (py "00"), msg) ∧
    safe_get_items data = Ok (item :: items) ∧
    json_normalize other (item :: items) = Ok df ∧
    make_view (columns df) (kept_rows a df) = Ok table ∧
    log_lines = [line_requested; line_api (JStr (py "00")) msg] ++ filter_lines a df
                ++ [line_count (length (rows table))].
Proof.
  intros Hexit Hrows. unfold try_block, eval in Hexit.
  destruct answer as [resp | e]; [| discriminate].
  case_bool_decide as Hs.
  { injection Hexit as _ <-. by destruct Hrows. }
  destruct (json_of resp) as [data | e] eqn:Hj.
  2: { destruct e; try discriminate. injection Hexit as _ <-. by destruct Hrows. }
  unfold shape_data, eval in Hexit.
  destruct (read_header data) as [[code msg] | e] eqn:Hh; [| discriminate].
  destruct (eq_str code (py "00")) eqn:Hc; cbn [negb] in Hexit.
  2: { injection Hexit as _ <-. by destruct Hrows. }
  apply eq_str_eq in Hc. subst code.
  destruct (safe_get_items data) as [[| item items] | e] eqn:Hi; [| | discriminate].
  { injection Hexit as _ <-. by destruct Hrows. }
  destruct (json_normalize other (item :: items)) as [df | e] eqn:Hn; [| discriminate].
  rewrite shape_frame_exit in Hexit.
  destruct (kept_rows a df) as [| r rs] eqn:Hk.
  { injection Hexit as _ <-. by destruct Hrows. }
  destruct (make_view (columns df) (r :: rs)) as [v | e] eqn:Hv; [| discriminate].
  injection Hexit as <- <-.
  exists resp, data, msg, item, items, df. by rewrite Hk.
Qed.

End FurtherPipelineFacts.

(** ** Trimming *)

Lemma lstrip_length (s : str) : (length (lstrip s) ≤ length s)%nat.
Proof.
  induction s as [| c s IH]; simpl; [lia |].
  destruct (isspace c); simpl; lia.
Qed.

Lemma lstrip_fixed (s : str) :
  lstrip s = s ↔ match s with [] => True | c :: _ => isspace c = false end.
Proof.
  destruct s as [| c s]; simpl; [done |].
  destruct (isspace c) eqn:Hc; split; try done.
  intros H. pose proof (lstrip_length s) as Hlen. rewrite H in Hlen. simpl in Hlen. lia.
Qed.

Lemma lstrip_idem (s : str) : lstrip (lstrip s) = lstrip s.
Proof.
  induction s as [| c s IH]; simpl; [done |].
  destruct (isspace c) eqn:Hc; [done |]. simpl. by rewrite Hc.
Qed.

Lemma rstrip_idem (s : str) : rstrip (rstrip s) = rstrip s.
Proof. unfold rstrip. by rewrite rev_involutive, lstrip_idem. Qed.

Lemma lstrip_rstrip (s : str) : lstrip s = s → lstrip (rstrip s) = rstrip s.
Proof.
  intros Hs. destruct (rstrip_split s) as (blanks & Hsplit & _).
  apply lstrip_fixed. destruct (rstrip s) as [| c t]; [done |].
  apply lstrip_fixed in Hs. rewrite Hsplit in Hs. exact Hs.
Qed.

(** A trimmed text is left as it is by [strip]. *)
Lemma strip_idem (s : str) : strip (strip s) = strip s.
Proof.
  unfold strip. rewrite (lstrip_rstrip (lstrip s)) by apply lstrip_idem.
  apply rstrip_idem.
Qed.

Lemma strip_head (s : str) (c : N) (t : str) : strip s = c :: t → isspace c = false.
Proof.
  intros H. pose proof (lstrip_rstrip (lstrip s) (lstrip_idem s)) as Hl.
  fold (strip s) in Hl. apply lstrip_fixed in Hl. by rewrite H in Hl.
Qed.

Lemma strip_last (s t : str) (c : N) : strip s = t ++ [c] → isspace c = false.
Proof.
  intros H. pose proof (rstrip_idem (lstrip s)) as Hr. fold (strip s) in Hr.
  unfold rstrip in Hr. apply (f_equal (@rev N)) in Hr. rewrite rev_involutive in Hr.
  apply lstrip_fixed in Hr. rewrite H, rev_app_distr in Hr. exact Hr.
Qed.

Lemma lstrip_no_space (s : str) :
  Forall (fun c => isspace c = false) s → lstrip s = s.
Proof. intros H. apply lstrip_fixed. by destruct H. Qed.

Lemma strip_no_space (s : str) :
  Forall (fun c => isspace c = false) s → strip s = s.
Proof.
  intros H. unfold strip, rstrip. rewrite (lstrip_no_space s H).
  rewrite lstrip_no_space; [apply rev_involutive |].
  apply Forall_forall. intros c Hc. rewrite Forall_forall in H. apply H.
  apply list_elem_of_In. apply in_rev. by apply list_elem_of_In.
Qed.

(** A blank text is trimmed to nothing, and only a blank text is. *)
Lemma strip_nil (s : str) : strip s = [] ↔ Forall (fun c => isspace c = true) s.
Proof.
  split.
  - intros H. destruct (lstrip_split s) as (front & Hf & Hfb).
    destruct (rstrip_split (lstrip s)) as (back & Hb & Hbb).
    fold (strip s) in Hb. rewrite H in Hb. cbn [app] in Hb.
    rewrite Hf, Hb. by apply Forall_app.
  - intros H. assert (Hl : lstrip s = []).
    { induction H as [| c s Hc _ IH]; [done |]. simpl. by rewrite Hc. }
    unfold strip. by rewrite Hl.
Qed.

(** ** Dates *)

Lemma ascii_digit_range (c : N) : is_Some (ascii_digit c) → (48 ≤ c < 58)%N.
Proof.
  unfold ascii_digit. intros [k Hk].
  destruct ((48 <=? c)%N && (c <? 58)%N) eqn:E; [| discriminate].
  apply andb_true_iff in E as [E1 E2]. apply N.leb_le in E1. apply N.ltb_lt in E2. lia.
Qed.

Lemma ascii_digit_no_space (c : N) : is_Some (ascii_digit c) → isspace c = false.
Proof.
  intros H. apply ascii_digit_range in H. unfold isspace, whitespace. cbn [existsb].
  repeat (rewrite (proj2 (N.eqb_neq c _)) by lia). reflexivity.
Qed.

Lemma str_of_int_neg (p : positive) :
  str_of_int (Zneg p) = 0x2D%N :: chars_of_uint (Pos.to_uint p).
Proof.
  unfold str_of_int, chars_of_uint. cbn [Z.to_int NilZero.string_of_int].
  unfold NilZero.string_of_uint.
  pose proof (Unsigned.to_uint_nonnil p) as Hne.
  by destruct (Pos.to_uint p).
Qed.

Lemma chars_of_uint_digits (d : Decimal.uint) :
  Forall (fun c => is_Some (ascii_digit c)) (chars_of_uint d).
Proof. by destruct (mapM_ascii_digit_all _ _ (mapM_ascii_digit_uint d)). Qed.

Lemma str_of_int_no_space (n : Z) : Forall (fun c => isspace c = false) (str_of_int n).
Proof.
  assert (Hd : ∀ d, Forall (fun c => isspace c = false) (chars_of_uint d)).
  { intros d. eapply Forall_impl; [apply chars_of_uint_digits |].
    intros c. apply ascii_digit_no_space. }
  destruct n as [| p | p].
  - by repeat constructor.
  - rewrite str_of_int_pos. apply Hd.
  - rewrite str_of_int_neg. constructor; [reflexivity | apply Hd].
Qed.

Lemma zero_pad_no_space (width : nat) (n : Z) :
  Forall (fun c => isspace c = false) (zero_pad width n).
Proof.
  unfold zero_pad. apply Forall_app. split; [| apply str_of_int_no_space].
  apply Forall_forall. intros c Hc. apply elem_of_replicate in Hc as [-> _]. reflexivity.
Qed.

Lemma strftime_no_space (y m d : Z) :
  Forall (fun c => isspace c = false) (strftime_Ymd y m d).
Proof.
  unfold strftime_Ymd. change (py "-") with [45%N].
  apply Forall_app; split; [apply str_of_int_no_space |].
  apply Forall_cons; split; [reflexivity |].
  apply Forall_app; split; [apply zero_pad_no_space |].
  apply Forall_cons; split; [reflexivity |]. apply zero_pad_no_space.
Qed.

(** X1. What [normalize_date_str] returns is normalized: handed back to
    [normalize_date_str] as a text it comes out unchanged, and it has no
    white space at either end, whether the argument was [None], a text
    or a date. *)
Theorem normalize_date_str_idempotent (d : date_arg) :
  normalize_date_str (DateStr (normalize_date_str d)) = normalize_date_str d ∧
  strip (normalize_date_str d) = normalize_date_str d.
Proof.
  destruct d as [| s | y m dd]; cbn [normalize_date_str].
  - by split.
  - destruct s as [| c s]; [by split |].
    rewrite strip_idem. split; [| reflexivity].
    by destruct (strip (c :: s)) eqn:E.
  - rewrite (strip_no_space _ (strftime_no_space y m dd)). split; [| reflexivity].
    by destruct (strftime_Ymd y m dd).
Qed.

Lemma fold_decimal_bound (ds : list Z) (acc : Z) :
  Forall (fun d => 0 ≤ d ≤ 9) ds → 0 ≤ acc →
  acc * 10 ^ Z.of_nat (length ds)
  ≤ fold_left (fun acc d => 10 * acc + d) ds acc
  < (acc + 1) * 10 ^ Z.of_nat (length ds).
Proof.
  intros Hds. revert acc. induction Hds as [| d ds Hd _ IH]; intros acc Hacc.
  - cbn. lia.
  - cbn [fold_left length]. specialize (IH (10 * acc + d) ltac:(lia)).
    rewrite Nat2Z.inj_succ, Z.pow_succ_r by lia.
    assert (0 < 10 ^ Z.of_nat (length ds)) by (apply Z.pow_pos_nonneg; lia). nia.
Qed.

Lemma uint_digits_range (d : Decimal.uint) : Forall (fun k => 0 ≤ k ≤ 9) (uint_digits d).
Proof. induction d; cbn [uint_digits]; constructor; (lia || done). Qed.

Lemma length_chars_of_uint (d : Decimal.uint) :
  length (chars_of_uint d) = length (uint_digits d).
Proof. apply (length_mapM ascii_digit), mapM_ascii_digit_uint. Qed.

(** The decimal numeral of a positive number does not start with 0. *)
Lemma to_uint_leading (p : positive) (d : Decimal.uint) : Pos.to_uint p ≠ Decimal.D0 d.
Proof.
  intros E.
  pose proof (DecimalPos.Unsigned.to_of (Pos.to_uint p)) as Hnorm.
  rewrite DecimalPos.Unsigned.of_to in Hnorm. cbn [N.to_uint] in Hnorm.
  rewrite E in Hnorm. unfold Decimal.unorm in Hnorm. cbn [Decimal.nzhead] in Hnorm.
  destruct (Decimal.nzhead d) eqn:Hd.
  - injection Hnorm as ->. by apply (DecimalPos.Unsigned.to_uint_nonzero p).
  - rewrite <- Hd in Hnorm. symmetry in Hnorm. by apply DecimalFacts.nzhead_nonzero in Hnorm.
  - discriminate.
  - discriminate.
  - discriminate.
  - discriminate.
  - discriminate.
  - discriminate.
  - discriminate.
  - discriminate.
  - discriminate.
Qed.

(** A number of four digits is written on four characters. *)
Lemma year_text (y : Z) :
  1000 ≤ y ≤ 9999 → length (str_of_int y) = 4%nat.
Proof.
  intros Hy. destruct y as [| p | p]; [lia | | lia].
  rewrite str_of_int_pos, length_chars_of_uint.
  pose proof (decimal_value_uint (Pos.to_uint p)) as Hv.
  rewrite DecimalPos.Unsigned.of_to in Hv. cbn [Z.of_N] in Hv.
  pose proof (uint_digits_range (Pos.to_uint p)) as Hr.
  pose proof (to_uint_leading p) as Hlead.
  pose proof (DecimalPos.Unsigned.to_uint_nonnil p) as Hnil.
  assert (Hhead : ∃ k ds, uint_digits (Pos.to_uint p) = k :: ds ∧ 1 ≤ k ≤ 9).
  { destruct (Pos.to_uint p) as [| u | u | u | u | u | u | u | u | u | u];
      [done | by destruct (Hlead u) | ..]; cbn [uint_digits]; do 2 eexists;
      (split; [reflexivity | lia]). }
  destruct Hhead as (k & ds & Hds & Hk). rewrite Hds in Hv, Hr |- *.
  apply Forall_cons in Hr as [_ Hr].
  pose proof (fold_decimal_bound ds k Hr ltac:(lia)) as Hb.
  unfold decimal_value in Hv. cbn [fold_left] in Hv.
  replace (10 * 0 + k) with k in Hv by lia. rewrite Hv in Hb.
  cbn [length]. f_equal.
  destruct (length ds) as [| [| [| [| n]]]] eqn:Hlen.
  - change (10 ^ Z.of_nat 0) with 1 in Hb. lia.
  - change (10 ^ Z.of_nat 1) with 10 in Hb. lia.
  - change (10 ^ Z.of_nat 2) with 100 in Hb. lia.
  - reflexivity.
  - assert (10 ^ 4 ≤ 10 ^ Z.of_nat (S (S (S (S n))))) by (apply Z.pow_le_mono_r; lia).
    change (10 ^ 4) with 10000 in *. nia.
Qed.

Lemma two_digit_text (n : Z) :
  0 ≤ n ≤ 99 →
  length (zero_pad 2 n) = 2%nat ∧ Forall (fun c => is_Some (ascii_digit c)) (zero_pad 2 n).
Proof.
  intros Hn.
  assert (Hall : Forall (fun n => length (zero_pad 2 n) = 2%nat ∧
                                  Forall (fun c => is_Some (ascii_digit c)) (zero_pad 2 n))
                        (seqZ 0 100)).
  { apply (bool_decide_unpack _). by vm_compute. }
  rewrite Forall_forall in Hall. apply Hall. apply elem_of_seqZ. lia.
Qed.

Lemma str_of_int_ascii (n : Z) :
  0 ≤ n → Forall (fun c => is_Some (ascii_digit c)) (str_of_int n).
Proof.
  intros Hn. destruct (str_of_int_digits n Hn) as (ds & Hds & _).
  by destruct (mapM_ascii_digit_all _ _ Hds).
Qed.

Lemma remove_dash_digits (s : str) :
  Forall (fun c => is_Some (ascii_digit c)) s → remove_char 0x2D%N s = s.
Proof.
  intros H. unfold remove_char. induction H as [| c s Hc _ IH]; [reflexivity |].
  rewrite filter_cons_True; [by rewrite IH |].
  apply ascii_digit_range in Hc. lia.
Qed.

Lemma remove_dash_strftime (y m d : Z) :
  0 ≤ y → 0 ≤ m ≤ 99 → 0 ≤ d ≤ 99 →
  remove_char 0x2D%N (strftime_Ymd y m d) = str_of_int y ++ zero_pad 2 m ++ zero_pad 2 d.
Proof.
  intros Hy Hm Hd. unfold strftime_Ymd. change (py "-") with [45%N].
  unfold remove_char. rewrite !filter_app.
  fold (remove_char 45%N (str_of_int y)) (remove_char 45%N (zero_pad 2 m))
       (remove_char 45%N (zero_pad 2 d)).
  rewrite (remove_dash_digits _ (str_of_int_ascii y Hy)).
  rewrite (remove_dash_digits _ (proj2 (two_digit_text m Hm))).
  rewrite (remove_dash_digits _ (proj2 (two_digit_text d Hd))).
  rewrite (filter_cons_False _ 45%N) by (intros H; by apply H). reflexivity.
Qed.

Lemma nonempty_strftime (y m d : Z) : nonempty (strftime_Ymd y m d) = true.
Proof.
  unfold strftime_Ymd. destruct (str_of_int y) eqn:E; [| reflexivity].
  reflexivity.
Qed.

(** X2. For a date of a four-digit year the request carries a stamp of
    exactly twelve ASCII digits: the year, the month and the day on two
    digits each, then "0000" for the start of the range in [inqryBgnDt]
    and "2359" for its end in [inqryEndDt]. *)
Theorem date_params_twelve_digits (a : args) (y m d : Z) :
  1000 ≤ y ≤ 9999 → 1 ≤ m ≤ 12 → 1 ≤ d ≤ 31 →
  (start_date a = Date y m d →
     ∃ stamp, build_params a !! py "inqryBgnDt" = Some stamp ∧
       stamp = str_of_int y ++ zero_pad 2 m ++ zero_pad 2 d ++ py "0000" ∧
       length stamp = 12%nat ∧ Forall (fun c => is_Some (ascii_digit c)) stamp) ∧
  (end_date a = Date y m d →
     ∃ stamp, build_params a !! py "inqryEndDt" = Some stamp ∧
       stamp = str_of_int y ++ zero_pad 2 m ++ zero_pad 2 d ++ py "2359" ∧
       length stamp = 12%nat ∧ Forall (fun c => is_Some (ascii_digit c)) stamp).
Proof.
  intros Hy Hm Hd.
  destruct (build_params_lookup a) as (_ & _ & _ & _ & _ & Hbgn & Hend & _).
  destruct (two_digit_text m ltac:(lia)) as [Hml Hma].
  destruct (two_digit_text d ltac:(lia)) as [Hdl Hda].
  pose proof (year_text y Hy) as Hyl.
  pose proof (str_of_int_ascii y ltac:(lia)) as Hya.
  split; intros Hdate.
  - rewrite Hdate in Hbgn. cbn [normalize_date_str] in Hbgn.
    rewrite nonempty_strftime, remove_dash_strftime in Hbgn by lia.
    eexists. split; [exact Hbgn |]. rewrite <- !app_assoc. split; [reflexivity |].
    split.
    + rewrite !length_app, Hyl, Hml, Hdl. reflexivity.
    + apply Forall_app; split; [done |]. apply Forall_app; split; [done |].
      apply Forall_app; split; [done |].
      apply Forall_forall. intros c Hc. vm_compute in Hc.
      repeat (apply elem_of_cons in Hc as [-> | Hc]; [by eexists |]).
      by apply elem_of_nil in Hc.
  - rewrite Hdate in Hend. cbn [normalize_date_str] in Hend.
    rewrite nonempty_strftime, remove_dash_strftime in Hend by lia.
    eexists. split; [exact Hend |]. rewrite <- !app_assoc. split; [reflexivity |].
    split.
    + rewrite !length_app, Hyl, Hml, Hdl. reflexivity.
    + apply Forall_app; split; [done |]. apply Forall_app; split; [done |].
      apply Forall_app; split; [done |].
      apply Forall_forall. intros c Hc. vm_compute in Hc.
      repeat (apply elem_of_cons in Hc as [-> | Hc]; [by eexists |]).
      by apply elem_of_nil in Hc.
Qed.

(** ** The parameters of the request, once more *)

Lemma nonempty_true (s : str) : nonempty s = true ↔ s ≠ [].
Proof. destruct s; split; done. Qed.

(** X3. The region code is left out of the request exactly when it is
    empty or white space only; when it is sent it has at least two
    characters and no white space at either end, and it is the trimmed
    code itself or, for a code of one character, that character after a
    "0". *)
Theorem region_param_shape (a : args) :
  (build_params a !! py "prtcptLmtRgnCd" = None ↔
     Forall (fun c => isspace c = true) (region_code a)) ∧
  (∀ sent, build_params a !! py "prtcptLmtRgnCd" = Some sent →
     (2 ≤ length sent)%nat ∧ strip sent = sent ∧
     (sent = strip (region_code a) ∨
      ∃ c, strip (region_code a) = [c] ∧ sent = [0x30%N; c])).
Proof.
  destruct (build_params_lookup a) as (_ & _ & _ & _ & _ & _ & _ & _ & _ & Hlookup).
  rewrite Hlookup. clear Hlookup. rewrite <- strip_nil. split.
  - destruct (strip (region_code a)); split; done.
  - intros sent Hsent.
    destruct (strip (region_code a)) as [| c t] eqn:Hstrip; [discriminate |].
    cbn [nonempty] in Hsent. injection Hsent as <-.
    pose proof (strip_head _ _ _ Hstrip) as Hc.
    destruct t as [| c' t].
    + rewrite bool_decide_eq_true_2 by reflexivity.
      change (py "0" ++ [c]) with [48%N; c]. split; [simpl; lia |]. split.
      * apply strip_no_space. by repeat constructor.
      * right. by exists c.
    + rewrite bool_decide_eq_false_2 by (simpl; lia).
      split; [simpl; lia |]. split; [| by left].
      rewrite <- Hstrip. apply strip_idem.
Qed.

Lemma region_param_shape_witness :
  build_params (search_with "KEY" "" " 5 ") !! py "prtcptLmtRgnCd" = Some (py "05") ∧
  strip (py "05") = py "05".
Proof.
  assert (H : build_params (search_with "KEY" "" " 5 ") !! py "prtcptLmtRgnCd"
              = Some (py "05")) by (by vm_compute).
  split; [exact H |].
  exact (proj1 (proj2 (proj2 (region_param_shape (search_with "KEY" "" " 5 "))
                         (py "05") H))).
Defined.

(** X4. A title or industry keyword that reaches the request is the
    trimmed keyword, with no white space left at either end, and a
    keyword with at least one visible character is always sent, and sent
    non-empty. *)
Theorem keyword_params_trimmed (a : args) :
  (∀ sent, build_params a !! py "bidNtceNm" = Some sent →
     sent = strip (bid_name a) ∧ strip sent = sent) ∧
  (∀ sent, build_params a !! py "indstrytyNm" = Some sent →
     sent = strip (industry_name a) ∧ strip sent = sent) ∧
  (Exists (fun c => isspace c = false) (bid_name a) →
     ∃ sent, build_params a !! py "bidNtceNm" = Some sent ∧ sent ≠ []) ∧
  (Exists (fun c => isspace c = false) (industry_name a) →
     ∃ sent, build_params a !! py "indstrytyNm" = Some sent ∧ sent ≠ []).
Proof.
  destruct (build_params_lookup a) as (_ & _ & _ & _ & _ & _ & _ & Hbid & Hind & _).
  rewrite Hbid, Hind. clear Hbid Hind.
  assert (Hvisible : ∀ s : str, Exists (fun c => isspace c = false) s →
                      nonempty s = true ∧ strip s ≠ []).
  { intros s Hs. split.
    - destruct Hs; reflexivity.
    - intros Hnil. apply strip_nil in Hnil. apply Exists_exists in Hs as (c & Hc & Hsp).
      rewrite Forall_forall in Hnil. specialize (Hnil c Hc). congruence. }
  repeat split.
  - destruct (nonempty (bid_name a)); congruence.
  - destruct (nonempty (bid_name a)); [| discriminate].
    injection H as <-. apply strip_idem.
  - destruct (nonempty (industry_name a)); congruence.
  - destruct (nonempty (industry_name a)); [| discriminate].
    injection H as <-. apply strip_idem.
  - intros Hs. destruct (Hvisible _ Hs) as [-> Hne]. eauto.
  - intros Hs. destruct (Hvisible _ Hs) as [-> Hne]. eauto.
Qed.

Lemma keyword_params_trimmed_witness :
  ∃ sent, build_params (search_with "KEY" " 도로 보수 " "") !! py "bidNtceNm" = Some sent ∧
          sent ≠ [].
Proof.
  refine (proj1 (proj2 (proj2 (keyword_params_trimmed (search_with "KEY" " 도로 보수 " ""))))
            _).
  vm_compute. apply Exists_cons_tl, Exists_cons_hd. reflexivity.
Defined.

(** X5. The keys of the request are the five that are always sent and,
    of the five optional ones, those whose criterion is filled in: a
    date that normalizes to a non-empty text, a keyword that is not the
    empty text, a region code with a visible character.  No other key is
    ever sent. *)
Theorem params_key_set (a : args) (key : str) :
  is_Some (build_params a !! key) ↔
    key ∈ always_keys ∨
    key = py "inqryBgnDt" ∧ normalize_date_str (start_date a) ≠ [] ∨
    key = py "inqryEndDt" ∧ normalize_date_str (end_date a) ≠ [] ∨
    key = py "bidNtceNm" ∧ bid_name a ≠ [] ∨
    key = py "indstrytyNm" ∧ industry_name a ≠ [] ∨
    key = py "prtcptLmtRgnCd" ∧ strip (region_code a) ≠ [].
Proof.
  destruct (build_params_lookup a)
    as (H1 & H2 & H3 & H4 & H5 & H6 & H7 & H8 & H9 & H10).
  rewrite <- !nonempty_true. split.
  - intros Hsome.
    destruct (decide (key ∈ always_keys ++ optional_keys)) as [Hin | Hout].
    2: { rewrite (build_params_other a key Hout) in Hsome. by destruct Hsome. }
    apply elem_of_app in Hin as [Hin | Hin]; [by left | right].
    unfold optional_keys in Hin.
    repeat (apply elem_of_cons in Hin as [-> | Hin]); [ .. | by apply elem_of_nil in Hin ].
    + rewrite H6 in Hsome. left.
      destruct (nonempty (normalize_date_str (start_date a))); [done | by destruct Hsome].
    + rewrite H7 in Hsome. right. left.
      destruct (nonempty (normalize_date_str (end_date a))); [done | by destruct Hsome].
    + rewrite H8 in Hsome. right. right. left.
      destruct (nonempty (bid_name a)); [done | by destruct Hsome].
    + rewrite H9 in Hsome. right. right. right. left.
      destruct (nonempty (industry_name a)); [done | by destruct Hsome].
    + rewrite H10 in Hsome. right. right. right. right.
      destruct (nonempty (strip (region_code a))); [done | by destruct Hsome].
  - intros [Hin | [[-> Hc] | [[-> Hc] | [[-> Hc] | [[-> Hc] | [-> Hc]]]]]].
    + unfold always_keys in Hin.
      repeat (apply elem_of_cons in Hin as [-> | Hin]); [ .. | by apply elem_of_nil in Hin ].
      * rewrite H1. eauto.
      * rewrite H2. eauto.
      * rewrite H3. eauto.
      * rewrite H4. eauto.
      * rewrite H5. eauto.
    + rewrite H6, Hc. eauto.
    + rewrite H7, Hc. eauto.
    + rewrite H8, Hc. eauto.
    + rewrite H9, Hc. eauto.
    + rewrite H10, Hc. eauto.
Qed.



(** ** Money, the price column and the filters *)

(** X7. The price shown in the view reads back as the price: for a
    whole amount below 2^53, removing what is not a digit from the text
    with commas gives the plain decimal text, the price column and
    [parse_money] both read the text with commas as the amount, and
    [int] of that float is the amount again. *)
Theorem display_price_round_trip (n : Z) :
  0 ≤ n < 2 ^ 53 →
  re_sub_nondigit (format_thousands n) = str_of_int n ∧
  price_of_text (format_thousands n) = float_of_Z n ∧
  parse_money (Some (format_thousands n)) = Ok (Some (float_of_Z n)) ∧
  py_int (float_of_Z n) = Ok n.
Proof.
  intros [Hn Hlt]. split; [by apply format_thousands_digits |].
  split; [by apply price_of_format_thousands |].
  split; [by apply parse_money_format_thousands |].
  by apply py_int_float_of_Z.
Qed.

Lemma display_price_round_trip_witness :
  format_thousands 1234567 = py "1,234,567" ∧
  parse_money (Some (format_thousands 1234567)) = Ok (Some (float_of_Z 1234567)).
Proof.
  split; [by vm_compute |].
  refine (proj1 (proj2 (proj2 (display_price_round_trip 1234567 _)))). lia.
Defined.

Lemma money_of_digits_nonneg (s : str) (x : spec_float) :
  money_of_digits (digits_of s) = Some x → nonneg_float x = true.
Proof.
  unfold money_of_digits. destruct (digits_of s) eqn:E; [discriminate |].
  intros [= <-]. rewrite <- E. apply float_of_Z_nonneg, decimal_value_nonneg.
Qed.

(** X8. [parse_money] never returns a negative number or a NaN: what it
    returns is at least zero.  A character that is not a decimal digit
    changes nothing wherever it stands, so a minus sign in front of the
    amount is dropped and the amount is read as positive. *)
Theorem parse_money_never_negative :
  (∀ (val : option (str)) (x : spec_float),
     parse_money val = Ok (Some x) →
     nonneg_float x = true ∧ float_ge x (float_of_Z 0) = true) ∧
  (∀ (c : N) (before after : str),
     isdecimal c = false →
     parse_money (Some (before ++ c :: after)) = parse_money (Some (before ++ after))) ∧
  (∀ s : str, parse_money (Some (py "-" ++ s)) = parse_money (Some s)).
Proof.
  split.
  { intros val x H. rewrite parse_money_normalized in H. injection H as H.
    destruct val as [v |]; [| discriminate]. cbn [normalized_money] in H.
    pose proof (money_of_digits_nonneg v x H) as Hx. split; [done |].
    by apply float_ge_zero. }
  assert (Hskip : ∀ (c : N) (before after : str), isdecimal c = false →
            parse_money (Some (before ++ c :: after)) = parse_money (Some (before ++ after))).
  { intros c before after Hc. rewrite !parse_money_normalized. cbn [normalized_money].
    rewrite !digits_of_app. unfold digits_of at 2. cbn [omap list_omap].
    unfold isdecimal in Hc. by destruct (todecimal c). }
  split; [exact Hskip |].
  intros s. exact (Hskip 45%N [] s eq_refl).
Qed.

Lemma parse_money_never_negative_witness :
  float_ge (float_of_Z 5) (float_of_Z 0) = true ∧
  parse_money (Some (py "-5")) = Ok (Some (float_of_Z 5)).
Proof.
  assert (H : parse_money (Some (py "-5")) = Ok (Some (float_of_Z 5))) by (by vm_compute).
  split; [| exact H].
  exact (proj2 (proj1 parse_money_never_negative (Some (py "-5")) (float_of_Z 5) H)).
Defined.

Lemma float_le_zero (x : spec_float) :
  nonneg_float x = true → float_le (float_of_Z 0) x = true.
Proof. destruct x as [s | [] | | [] m e]; by cbn. Qed.

(** X9. A row whose price column holds 0 (a price that is missing, null
    or without a digit) passes every maximum bound that [parse_money]
    reads, and passes a minimum bound (below 2^53) exactly when that
    bound is itself 0. *)
Theorem unpriced_rows_and_bounds :
  (∀ (bound : option (str)) (m : spec_float) (rs : list priced) (r : priced),
     parse_money bound = Ok (Some m) → presmpt_num r = float_of_Z 0 →
     r ∈ rs → r ∈ filter_max (Some m) rs) ∧
  (∀ (v : str) (rs : list priced) (r : priced),
     digits_of v ≠ [] → decimal_value (digits_of v) < 2 ^ 53 →
     presmpt_num r = float_of_Z 0 → r ∈ rs →
     ∃ m, parse_money (Some v) = Ok (Some m) ∧
          (r ∈ filter_min (Some m) rs ↔ decimal_value (digits_of v) = 0)).
Proof.
  split.
  - intros bound m rs r Hm Hr Hin. cbn [filter_max]. apply list_elem_of_filter.
    split; [| done]. rewrite Hr. apply float_le_zero.
    rewrite parse_money_normalized in Hm. injection Hm as Hm.
    destruct bound as [v |]; [| discriminate]. by apply (money_of_digits_nonneg v).
  - intros v rs r Hne Hlt Hr Hin. eexists. split; [by apply parse_money_digits |].
    cbn [filter_min]. rewrite list_elem_of_filter, Hr.
    pose proof (decimal_value_nonneg v) as H0.
    rewrite (float_ge_of_Z 0 (decimal_value (digits_of v))) by lia.
    rewrite Z.leb_le. split; [intros [? _]; lia | intros ->; split; [lia | done]].
Qed.

Lemma unpriced_rows_and_bounds_witness :
  without_method ∈ filter_max (Some (float_of_Z 300)) [without_method] ∧
  ∃ m, parse_money (Some (py "100")) = Ok (Some m) ∧
       (without_method ∈ filter_min (Some m) [without_method] ↔
        decimal_value (digits_of (py "100")) = 0).
Proof.
  split.
  - refine (proj1 unpriced_rows_and_bounds (Some (py "300")) (float_of_Z 300)
              [without_method] without_method _ _ _).
    + by vm_compute.
    + reflexivity.
    + apply list_elem_of_here.
  - refine (proj2 unpriced_rows_and_bounds (py "100") [without_method] without_method
              _ _ _ _).
    + by vm_compute.
    + by vm_compute.
    + reflexivity.
    + apply list_elem_of_here.
Defined.

(** X10. The two price filters can be applied in either order, applying
    them a second time removes nothing more, and a minimum bound above
    the maximum bound leaves no row (for bounds and prices that are
    whole amounts below 2^53). *)
Theorem price_filters_compose :
  (∀ (lo hi : option spec_float) (rs : list priced),
     filter_min lo (filter_max hi rs) = filter_max hi (filter_min lo rs)) ∧
  (∀ (lo hi : option spec_float) (rs : list priced),
     filter_max hi (filter_min lo (filter_max hi (filter_min lo rs)))
     = filter_max hi (filter_min lo rs)) ∧
  (∀ (lo hi : Z) (rs : list priced),
     0 ≤ hi < lo → lo < 2 ^ 53 →
     Forall (fun r => ∃ p, 0 ≤ p < 2 ^ 53 ∧ presmpt_num r = float_of_Z p) rs →
     filter_max (Some (float_of_Z hi)) (filter_min (Some (float_of_Z lo)) rs) = []).
Proof.
  split; [| split].
  - intros [lo |] [hi |] rs; cbn [filter_min filter_max]; try reflexivity.
    rewrite !list_filter_filter. apply list_filter_iff. intros r. tauto.
  - intros lo hi rs. rewrite !filter_min_max_within, list_filter_filter.
    apply list_filter_iff. intros r. tauto.
  - intros lo hi rs Hhi Hlo Hrs. rewrite filter_min_max_within.
    induction Hrs as [| r rs (p & Hp & Hr) _ IH]; [reflexivity |].
    rewrite filter_cons_False; [exact IH |].
    unfold within. rewrite Hr, float_ge_of_Z, float_le_of_Z by lia.
    intros H. apply andb_true_iff in H as [H1 H2].
    apply Z.leb_le in H1. apply Z.leb_le in H2. lia.
Qed.

Lemma price_filters_compose_witness :
  filter_max (Some (float_of_Z 100)) (filter_min (Some (float_of_Z 300))
                                        (priced_at [0; 100; 200; 300])) = [].
Proof.
  refine (proj2 (proj2 price_filters_compose) 300 100 (priced_at [0; 100; 200; 300]) _ _ _);
    [lia | lia |].
  repeat constructor.
  - exists 0. split; [lia | reflexivity].
  - exists 100. split; [lia | reflexivity].
  - exists 200. split; [lia | reflexivity].
  - exists 300. split; [lia | reflexivity].
Defined.

(** X11. When the frame has the contract-method column, the modes
    "only_private" and "exclude_private" split the rows in two: every
    row is kept by exactly one of them, the two counts add up to the
    number of rows, and each mode keeps the rows in their order. *)
Theorem contract_modes_partition (cols : list str) (rs : list priced) :
  py "cntrctCnclsMthdNm" ∈ cols →
  let only := fst (filter_contract cols (py "only_private") rs) in
  let others := fst (filter_contract cols (py "exclude_private") rs) in
  (∀ r, r ∈ rs → (r ∈ only ∧ ¬ r ∈ others) ∨ (¬ r ∈ only ∧ r ∈ others)) ∧
  (length only + length others = length rs)%nat ∧
  only `sublist_of` rs ∧ others `sublist_of` rs.
Proof.
  intros Hcol only others. subst only others. unfold filter_contract.
  rewrite (bool_decide_eq_true_2 _ Hcol).
  rewrite (bool_decide_eq_true_2 (py "only_private" = py "only_private")) by reflexivity.
  rewrite (bool_decide_eq_false_2 (py "exclude_private" = py "only_private"))
    by (by vm_compute).
  rewrite (bool_decide_eq_true_2 (py "exclude_private" = py "exclude_private"))
    by reflexivity.
  cbn [fst]. split; [| split; [| split; apply sublist_filter]].
  - intros r Hr. rewrite !list_elem_of_filter.
    destruct (is_private r); [left | right].
    + split; [done |]. intros [? _]. done.
    + split; [| done]. intros [? _]. done.
  - induction rs as [| r rs IH]; [reflexivity |].
    rewrite !filter_cons. destruct (is_private r) eqn:E.
    + rewrite decide_True, decide_False by done. cbn [length]. lia.
    + rewrite decide_False, decide_True by done. cbn [length]. lia.
Qed.

Lemma contract_modes_partition_witness :
  (length (fst (filter_contract [py "cntrctCnclsMthdNm"] (py "only_private")
             [with_method "일반경쟁"; with_method "수의계약"; without_method]))
   + length (fst (filter_contract [py "cntrctCnclsMthdNm"] (py "exclude_private")
               [with_method "일반경쟁"; with_method "수의계약"; without_method]))
   = 3)%nat.
Proof.
  refine (proj1 (proj2 (contract_modes_partition [py "cntrctCnclsMthdNm"]
            [with_method "일반경쟁"; with_method "수의계약"; without_method] _))).
  apply list_elem_of_here.
Defined.

Lemma filters_sub (cols : list str) (mode : str) (lo hi : option spec_float)
      (rs : list priced) :
  (filter_contract cols mode (filter_max hi (filter_min lo rs))).1 `sublist_of` rs.
Proof.
  unfold filter_contract, filter_max, filter_min.
  destruct lo, hi; repeat case_bool_decide; cbn [fst];
    repeat (etrans; [apply sublist_filter |]); reflexivity.
Qed.

(** X12. The two price filters and the contract-method step only
    remove rows, whatever the bounds and the mode: what is kept are rows
    of the frame, in the order of the frame, never more than the frame
    has, each with the price the price column gave it before any filter
    ran. *)
Theorem filters_only_remove (df : DataFrame) (lo hi : option spec_float) (mode : str) :
  let kept :=
    (filter_contract (columns df) mode
       (filter_max hi (filter_min lo (with_presmpt_num df)))).1 in
  kept `sublist_of` with_presmpt_num df ∧
  cells <$> kept `sublist_of` rows df ∧
  (length kept ≤ length (rows df))%nat ∧
  (∀ r, r ∈ kept → presmpt_num r = presmpt_num_of df (cells r)).
Proof.
  intros kept.
  pose proof (filters_sub (columns df) mode lo hi (with_presmpt_num df)) as Hsub.
  fold kept in Hsub. clearbody kept.
  assert (Hcells : cells <$> with_presmpt_num df = rows df).
  { unfold with_presmpt_num. generalize (rows df). intros l.
    induction l as [| r l IH]; [reflexivity |]. cbn [map fmap list_fmap]. f_equal. exact IH. }
  split; [exact Hsub |]. split; [| split].
  - rewrite <- Hcells. by apply fmap_sublist.
  - rewrite <- Hcells, length_fmap. by apply sublist_length.
  - intros r Hr. apply (elem_of_sublist _ _ _ Hr) in Hsub as Hin.
    unfold with_presmpt_num in Hin. apply list_elem_of_In, in_map_iff in Hin as (c & <- & _).
    reflexivity.
Qed.

Lemma filters_only_remove_witness :
  (length (filter_contract [py "presmptPrce"] (py "all")
             (filter_max None (filter_min (Some (float_of_Z 5000))
                (with_presmpt_num
                   (mkDataFrame [py "presmptPrce"]
                      [{[ py "presmptPrce" := CStr (py "1,000") ]}]))))).1 ≤ 1)%nat.
Proof.
  exact (proj1 (proj2 (proj2 (filters_only_remove
           (mkDataFrame [py "presmptPrce"] [{[ py "presmptPrce" := CStr (py "1,000") ]}])
           (Some (float_of_Z 5000)) None (py "all"))))).
Defined.

Lemma kept_rows_sub (a : args) (df : DataFrame) :
  kept_rows a df `sublist_of` with_presmpt_num df.
Proof.
  unfold kept_rows, filter_contract.
  repeat case_bool_decide; cbn [fst];
    repeat (etrans; [apply sublist_filter |]); reflexivity.
Qed.

Lemma length_with_presmpt_num (df : DataFrame) :
  length (with_presmpt_num df) = length (rows df).
Proof. unfold with_presmpt_num. apply length_map. Qed.

(** ** The view *)

Lemma renamed_inj (c c' : str) :
  c ∈ prefer_cols → c' ∈ prefer_cols → renamed c = renamed c' → c = c'.
Proof.
  revert c c'.
  assert (H : Forall (fun c => Forall (fun c' => renamed c = renamed c' → c = c') prefer_cols)
                     prefer_cols).
  { apply (bool_decide_unpack _). by vm_compute. }
  intros c c' Hc Hc'. rewrite Forall_forall in H. specialize (H c Hc).
  rewrite Forall_forall in H. by apply H.
Qed.

Lemma NoDup_prefer_cols : NoDup prefer_cols.
Proof. apply (bool_decide_unpack _). by vm_compute. Qed.

Lemma renamed_price : renamed (py "presmptPrce") = py "기초금액".
Proof. by vm_compute. Qed.

Lemma view_keys (price : option cell) (r : priced) (exist : list str) (key : str) :
  key ∈ (omap (view_cell price r) exist).*1 →
  ∃ c, c ∈ exist ∧ key = renamed c ∧
       is_Some (if bool_decide (c = py "presmptPrce") then price else cells r !! c).
Proof.
  intros H. apply list_elem_of_fmap in H as ([k v] & -> & H).
  apply list_elem_of_omap in H as (c & Hc & Hv). exists c. split; [done |].
  unfold view_cell in Hv.
  destruct (if bool_decide (c = py "presmptPrce") then price else cells r !! c) as [w |];
    [| discriminate].
  injection Hv as <- <-. split; [done | by eexists].
Qed.

Lemma NoDup_view_keys (price : option cell) (r : priced) (exist : list str) :
  NoDup exist → (∀ c, c ∈ exist → c ∈ prefer_cols) →
  NoDup (omap (view_cell price r) exist).*1.
Proof.
  induction 1 as [| c0 l Hnot Hnd IH]; intros Hsub; [constructor |].
  cbn [omap list_omap]. destruct (view_cell price r c0) as [[k v] |] eqn:E.
  - cbn [fmap list_fmap fst]. constructor.
    + intros Hin. apply view_keys in Hin as (c & Hc & Hk & _).
      unfold view_cell in E.
      destruct (if bool_decide (c0 = py "presmptPrce") then price else cells r !! c0);
        [| discriminate].
      injection E as <- <-. apply renamed_inj in Hk.
      * subst c. done.
      * apply Hsub, list_elem_of_here.
      * by apply Hsub, list_elem_of_further.
    + apply IH. intros c Hc. by apply Hsub, list_elem_of_further.
  - apply IH. intros c Hc. by apply Hsub, list_elem_of_further.
Qed.

Lemma lookup_view (price : option cell) (r : priced) (exist : list str) (c : str) :
  NoDup exist → (∀ c, c ∈ exist → c ∈ prefer_cols) → c ∈ exist →
  (list_to_map (omap (view_cell price r) exist) : row) !! renamed c
  = if bool_decide (c = py "presmptPrce") then price else cells r !! c.
Proof.
  intros Hnd Hsub Hc.
  destruct (if bool_decide (c = py "presmptPrce") then price else cells r !! c)
    as [v |] eqn:E.
  - apply elem_of_list_to_map_1; [by apply NoDup_view_keys |].
    apply list_elem_of_omap. exists c. split; [done |]. unfold view_cell. by rewrite E.
  - apply not_elem_of_list_to_map_1. intros Hin.
    apply view_keys in Hin as (c' & Hc' & Hk & Hsome).
    apply renamed_inj in Hk; [| by apply Hsub | by apply Hsub]. subst c'.
    rewrite E in Hsome. by destruct Hsome.
Qed.

Lemma lookup_view_other (price : option cell) (r : priced) (exist : list str)
      (key : str) :
  key ∉ renamed <$> exist →
  (list_to_map (omap (view_cell price r) exist) : row) !! key = None.
Proof.
  intros Hkey. apply not_elem_of_list_to_map_1. intros Hin.
  apply view_keys in Hin as (c & Hc & -> & _). apply Hkey.
  apply list_elem_of_fmap. by exists c.
Qed.

Lemma view_row_ok (exist : list str) (r : priced) (n : Z) :
  py_int (presmpt_num r) = Ok n →
  view_row exist r
  = Ok (list_to_map
          (omap (view_cell (if bool_decide (py "presmptPrce" ∈ exist)
                            then Some (CStr (format_thousands n)) else None) r) exist)).
Proof.
  intros Hn. unfold view_row. rewrite Hn. by case_bool_decide.
Qed.

Lemma mapM_result_lookup {A B} (f : A → result B) (l : list A) (l' : list B)
      (i : nat) (x : A) :
  mapM f l = Ok l' → l !! i = Some x → ∃ y, f x = Ok y ∧ l' !! i = Some y.
Proof.
  revert l' i. induction l as [| x0 l IH]; intros l' i H Hi; [done |].
  cbn [mapM] in H. destruct (f x0) as [y0 | e] eqn:E; [| discriminate].
  cbn [mbind result_bind] in H.
  destruct (mapM f l) as [k | e]; [| discriminate].
  injection H as <-. destruct i as [| i].
  - injection Hi as <-. by exists y0.
  - cbn in Hi. destruct (IH k i eq_refl Hi) as (y & Hy & Hk). by exists y.
Qed.

Lemma exist_cols (cols : list str) (c : str) :
  c ∈ filter (fun c => c ∈ cols) prefer_cols ↔ c ∈ prefer_cols ∧ c ∈ cols.
Proof. rewrite list_elem_of_filter. tauto. Qed.

Lemma make_view_rows (cols : list str) (rs : list priced) :
  Forall (fun r => ∃ n, 0 ≤ n < 2 ^ 53 ∧ presmpt_num r = float_of_Z n) rs →
  ∃ view_rows,
    mapM (view_row (filter (fun c => c ∈ cols) prefer_cols)) rs = Ok view_rows ∧
    make_view cols rs
    = Ok (mkDataFrame (renamed <$> filter (fun c => c ∈ cols) prefer_cols) view_rows) ∧
    length view_rows = length rs.
Proof.
  intros Hrs. unfold make_view.
  set (exist := filter (fun c => c ∈ cols) prefer_cols).
  destruct (mapM_result_ok (view_row exist) rs) as [view_rows Hview].
  { eapply Forall_impl; [exact Hrs |]. intros r (n & Hn & Hr). cbn beta.
    eexists. apply (view_row_ok exist r n). rewrite Hr. by apply py_int_float_of_Z. }
  exists view_rows. rewrite Hview. split; [reflexivity |]. split; [reflexivity |].
  by apply (mapM_result_length (view_row exist)).
Qed.

(** X13. For rows whose prices are whole amounts below 2^53 the view is
    built without an exception; it has one row per row kept, in order,
    and the columns of [prefer_cols] that the frame has, in that order
    and under their Korean names.  In each row the price is shown with
    commas under "기초금액", every other column shows the cell of the frame
    unchanged under its own new name (no two columns are renamed to the
    same name), and there is no cell outside these columns. *)
Theorem view_cells (cols : list str) (rs : list priced) :
  Forall (fun r => ∃ n, 0 ≤ n < 2 ^ 53 ∧ presmpt_num r = float_of_Z n) rs →
  ∃ view,
    make_view cols rs = Ok view ∧
    columns view = renamed <$> filter (fun c => c ∈ cols) prefer_cols ∧
    length (rows view) = length rs ∧
    ∀ (i : nat) (r : priced) (n : Z),
      rs !! i = Some r → presmpt_num r = float_of_Z n → 0 ≤ n < 2 ^ 53 →
      ∃ shown,
        rows view !! i = Some shown ∧
        (py "presmptPrce" ∈ cols →
           shown !! py "기초금액" = Some (CStr (format_thousands n))) ∧
        (∀ c, c ∈ prefer_cols → c ∈ cols → c ≠ py "presmptPrce" →
           shown !! renamed c = cells r !! c) ∧
        (∀ key, key ∉ columns view → shown !! key = None).
Proof.
  intros Hrs. destruct (make_view_rows cols rs Hrs) as (view_rows & Hview & -> & Hlen).
  set (exist := filter (fun c => c ∈ cols) prefer_cols) in *.
  assert (Hnd : NoDup exist) by apply NoDup_filter, NoDup_prefer_cols.
  assert (Hsub : ∀ c, c ∈ exist → c ∈ prefer_cols).
  { intros c Hc. by apply exist_cols in Hc as [? _]. }
  eexists. split; [reflexivity |]. cbn [columns rows].
  split; [reflexivity |]. split; [exact Hlen |].
  intros i r n Hi Hr Hn.
  destruct (mapM_result_lookup _ _ _ i r Hview Hi) as (shown & Hshown & Hlook).
  exists shown. split; [exact Hlook |].
  rewrite (view_row_ok exist r n) in Hshown
    by (rewrite Hr; by apply py_int_float_of_Z).
  injection Hshown as <-. split; [| split].
  - intros Hcol.
    assert (Hin : py "presmptPrce" ∈ exist).
    { apply exist_cols. split; [| done]. by vm_compute; repeat constructor. }
    rewrite <- renamed_price, lookup_view by done.
    rewrite bool_decide_eq_true_2 by reflexivity. by rewrite bool_decide_eq_true_2.
  - intros c Hc Hcol Hne. rewrite lookup_view by (done || by apply exist_cols).
    by rewrite bool_decide_eq_false_2.
  - intros key Hkey. by apply lookup_view_other.
Qed.

(** ** Answered searches *)

Lemma mapM_ascii_digit_range (s : str) (ds : list Z) :
  mapM ascii_digit s = Some ds →
  Forall (fun d => 0 ≤ d ≤ 9) ds ∧ length ds = length s.
Proof.
  revert ds. induction s as [| c s IH]; intros ds H.
  - injection H as <-. by split.
  - cbn [mapM] in H. destruct (ascii_digit c) as [k |] eqn:Hc; [| discriminate].
    destruct (mapM ascii_digit s) as [ks |] eqn:Hs; [| discriminate].
    injection H as <-. destruct (IH ks eq_refl) as [Hks Hlen]. split.
    + constructor; [| done]. unfold ascii_digit in Hc.
      destruct ((48 <=? c)%N && (c <? 58)%N) eqn:Hr; [| discriminate].
      injection Hc as <-. apply andb_true_iff in Hr as [H1 H2].
      apply N.leb_le in H1. apply N.ltb_lt in H2. lia.
    + cbn [length]. by rewrite Hlen.
Qed.

Lemma price_of_short_text (s : str) :
  (length (re_sub_nondigit s) ≤ 15)%nat →
  ∃ n, 0 ≤ n < 2 ^ 53 ∧ price_of_text s = float_of_Z n.
Proof.
  intros Hlen. unfold price_of_text, to_numeric_coerce.
  destruct (mapM ascii_digit (re_sub_nondigit s)) as [[| d ds] |] eqn:E;
    try (exists 0; split; [lia | reflexivity]).
  exists (decimal_value (d :: ds)). split; [| reflexivity].
  apply mapM_ascii_digit_range in E as [Hds Hl].
  pose proof (fold_decimal_bound (d :: ds) 0 Hds ltac:(lia)) as Hb.
  unfold decimal_value. split; [lia |].
  eapply Z.lt_le_trans; [apply Hb |].
  transitivity (10 ^ 15); [| lia].
  rewrite Z.mul_1_l. apply Z.pow_le_mono_r; lia.
Qed.

Lemma kept_rows_exact (a : args) (records : list row) :
  Forall short_price records →
  Forall (fun r => ∃ n, 0 ≤ n < 2 ^ 53 ∧ presmpt_num r = float_of_Z n)
         (kept_rows a (frame_of_records records)).
Proof.
  intros Hshort. apply Forall_forall. intros r Hr.
  pose proof (kept_rows_sub a (frame_of_records records)) as Hsub.
  apply (elem_of_sublist _ _ _ Hr) in Hsub.
  unfold with_presmpt_num in Hsub. cbn [rows frame_of_records] in Hsub.
  apply list_elem_of_In, in_map_iff in Hsub as (c & <- & Hc). apply list_elem_of_In in Hc.
  cbn [presmpt_num]. rewrite presmpt_num_of_frame by done.
  apply price_of_short_text. rewrite Forall_forall in Hshort. by apply Hshort.
Qed.

Lemma kept_rows_unfiltered (a : args) (df : DataFrame) :
  min_price a = None → max_price a = None → contract_filter a = py "all" →
  kept_rows a df = with_presmpt_num df.
Proof.
  intros Hmin Hmax Hall. unfold kept_rows, filter_contract.
  rewrite Hmin, Hmax, Hall. cbn [normalized_money within andb].
  rewrite (bool_decide_eq_false_2 (py "all" = py "only_private")) by (by vm_compute).
  rewrite (bool_decide_eq_false_2 (py "all" = py "exclude_private")) by (by vm_compute).
  assert (E : ∀ l : list priced, filter (fun _ : priced => true = true) l = l).
  { induction l as [| x l IH]; [reflexivity |]. rewrite filter_cons_True by done.
    by rewrite IH. }
  case_bool_decide; cbn [fst]; apply E.
Qed.

Section Answered.

Variable other : list json → result DataFrame.

Lemma try_block_answered (a : args) (resp : response) (data msg : json)
      (items : list json) (records : list row) :
  status_code resp = 200 → json_of resp = Ok data →
  read_header data = Ok (JStr (py "00"), msg) →
  safe_get_items data = Ok items → items ≠ [] →
  mapM flat_record items = Some records →
  Forall short_price records →
  ∃ table,
    try_block other a (Ok resp)
    = ([line_requested; line_api (JStr (py "00")) msg]
         ++ filter_lines a (frame_of_records records)
         ++ [match kept_rows a (frame_of_records records) with
             | [] => line_none_left
             | rs => line_count (length rs)
             end],
       Ok table) ∧
    length (rows table) = length (kept_rows a (frame_of_records records)) ∧
    (kept_rows a (frame_of_records records) ≠ [] →
     make_view (columns (frame_of_records records))
               (kept_rows a (frame_of_records records)) = Ok table).
Proof.
  intros Hs Hj Hh Hi Hne Hflat Hshort.
  rewrite (try_block_data other a resp data Hs Hj).
  destruct items as [| item items]; [done |].
  rewrite (shape_data_items other a data (JStr (py "00")) msg item items [line_requested]
             Hh eq_refl Hi).
  unfold json_normalize. rewrite Hflat. cbn [eval]. rewrite shape_frame_exit.
  pose proof (kept_rows_exact a records Hshort) as Hk.
  destruct (make_view_rows (columns (frame_of_records records)) _ Hk)
    as (view_rows & _ & Hview & Hlen).
  destruct (kept_rows a (frame_of_records records)) as [| r rs] eqn:E.
  - exists empty_frame. split; [reflexivity |]. split; [reflexivity | done].
  - rewrite Hview. eexists. cbn [rows]. rewrite Hlen.
    split; [reflexivity |]. split; [done | done].
Qed.

End Answered.

Lemma make_view_length (cols : list str) (rs : list priced) (view : DataFrame) :
  make_view cols rs = Ok view → length (rows view) = length rs.
Proof.
  unfold make_view. intros H.
  destruct (mapM _ rs) as [view_rows |] eqn:E; [| discriminate].
  injection H as <-. cbn [rows]. by apply (mapM_result_length _ _ _ E).
Qed.

Lemma make_view_columns (cols : list str) (rs : list priced) (view : DataFrame) :
  make_view cols rs = Ok view →
  columns view = renamed <$> filter (fun c => c ∈ cols) prefer_cols.
Proof.
  unfold make_view. intros H.
  destruct (mapM _ rs) as [view_rows |] eqn:E; [| discriminate].
  by injection H as <-.
Qed.

Lemma line_count_last (log_lines : log) (x : line) :
  last log_lines = Some x → length x ≠ 3%nat →
  ∀ n, last log_lines ≠ Some (line_count n).
Proof. intros -> Hx n [= ->]. by apply Hx. Qed.

Ltac not_counted :=
  eapply line_count_last;
  [first [reflexivity | rewrite ?app_comm_cons, ?app_assoc; apply last_snoc] | done].

Section Runs.

Variable other : list json → result DataFrame.

(** What is left of the [try] block when it returns a table. *)
Lemma try_block_returns (a : args) (answer : result response)
      (log_lines : log) (table : DataFrame) :
  try_block other a answer = (log_lines, Ok table) →
  (table = empty_frame ∧ ∀ n, last log_lines ≠ Some (line_count n)) ∨
  (rows table ≠ [] ∧ last log_lines = Some (line_count (length (rows table)))).
Proof.
  intros Hexit. unfold try_block, eval in Hexit.
  destruct answer as [resp | e]; [| discriminate].
  case_bool_decide as Hs.
  { injection Hexit as <- <-. left. split; [done |]. not_counted. }
  destruct (json_of resp) as [data | e] eqn:Hj.
  2: { destruct e; try discriminate. injection Hexit as <- <-. left. split; [done |].
       not_counted. }
  unfold shape_data, eval in Hexit.
  destruct (read_header data) as [[code msg] | e] eqn:Hh; [| discriminate].
  destruct (eq_str code (py "00")) eqn:Hc; cbn [negb] in Hexit.
  2: { injection Hexit as <- <-. left. split; [done |]. not_counted. }
  destruct (safe_get_items data) as [[| item items] | e] eqn:Hi; [| | discriminate].
  { injection Hexit as <- <-. left. split; [done |]. not_counted. }
  destruct (json_normalize other (item :: items)) as [df | e] eqn:Hn; [| discriminate].
  rewrite shape_frame_exit in Hexit.
  destruct (kept_rows a df) as [| r rs] eqn:Hk.
  { injection Hexit as <- <-. left. split; [done |]. not_counted. }
  destruct (make_view (columns df) (r :: rs)) as [v | e] eqn:Hv; [| discriminate].
  injection Hexit as <- <-. right. apply make_view_length in Hv as Hlen. split.
  - intros Hnil. rewrite Hnil in Hlen. discriminate.
  - rewrite ?app_comm_cons, ?app_assoc. apply last_snoc.
Qed.

(** X14. Whatever the server answers, the log [search_bids] returns is
    not empty, at most the one request was issued, and the table is
    either [pd.DataFrame()] itself, with a log that does not end in the
    count line, or a table with at least one row, with a log that ends
    in the count line carrying exactly the number of rows of the
    table. *)
Theorem table_empty_or_counted (a : args) (server : request → result response)
        (log_lines : log) (table : DataFrame) (issued : list request) :
  run server (search_bids other a) = (Ok (log_lines, table), issued) →
  log_lines ≠ [] ∧
  (issued = [] ∨ issued = [request_of a]) ∧
  ((table = empty_frame ∧ ∀ n, last log_lines ≠ Some (line_count n)) ∨
   (rows table ≠ [] ∧ last log_lines = Some (line_count (length (rows table))))).
Proof.
  intros Hrun. destruct (nonempty (service_key a)) eqn:Hkey.
  - rewrite (run_with_key other a server Hkey) in Hrun. injection Hrun as Hout <-.
    destruct (try_block other a (server (request_of a))) as [l [t | e]] eqn:Hexit;
      cbn [outer_handler] in Hout; injection Hout as <- <-.
    + apply try_block_returns in Hexit as Hshape. split; [| split; [by right | exact Hshape]].
      intros ->. destruct Hshape as [[_ H] | [_ H]]; [| discriminate].
      unfold try_block, eval in Hexit.
      destruct (server (request_of a)) as [resp | e]; [| discriminate].
      destruct (try_block_prefix other a resp) as [more Hmore].
      unfold try_block, eval in Hmore. rewrite Hexit in Hmore. discriminate.
    + split; [by destruct l |]. split; [by right |]. left. split; [done |].
      not_counted.
  - rewrite (run_no_key other a server Hkey) in Hrun. injection Hrun as <- <- <-.
    split; [done |]. split; [by left |]. left. split; [done |]. intros n. discriminate.
Qed.

(** X15. A table with rows is returned only on the one path through
    [search_bids] that succeeds: the credential is not empty, the
    request was answered with status 200 and a JSON document whose
    result code is "00" and whose items are not empty, the view of the
    rows kept was built, the table has no more rows than the frame, and
    the log is the request line, the result line, the lines of the
    filters and the count of the rows of the table. *)
Theorem rows_only_on_success (a : args) (server : request → result response)
        (log_lines : log) (table : DataFrame) (issued : list request) :
  run server (search_bids other a) = (Ok (log_lines, table), issued) →
  rows table ≠ [] →
  nonempty (service_key a) = true ∧ issued = [request_of a] ∧
  ∃ resp data msg item items df,
    server (request_of a) = Ok resp ∧ status_code resp = 200 ∧ json_of resp = Ok data ∧
    read_header data = Ok (JStr (py "00"), msg) ∧
    safe_get_items data = Ok (item :: items) ∧
    json_normalize other (item :: items) = Ok df ∧
    make_view (columns df) (kept_rows a df) = Ok table ∧
    (length (rows table) ≤ length (rows df))%nat ∧
    log_lines = [line_requested; line_api (JStr (py "00")) msg] ++ filter_lines a df
                ++ [line_count (length (rows table))].
Proof.
  intros Hrun Hrows. destruct (nonempty (service_key a)) eqn:Hkey.
  2: { rewrite (run_no_key other a server Hkey) in Hrun. injection Hrun as _ <- _.
       by destruct Hrows. }
  rewrite (run_with_key other a server Hkey) in Hrun. injection Hrun as Hout <-.
  split; [done |]. split; [done |].
  destruct (try_block other a (server (request_of a))) as [l [t | e]] eqn:Hexit;
    cbn [outer_handler] in Hout; injection Hout as <- <-; [| by destruct Hrows].
  destruct (try_block_rows other a _ _ _ Hexit Hrows)
    as (resp & data & msg & item & items & df & Hans & Hs & Hj & Hh & Hi & Hn & Hv & Hl).
  exists resp, data, msg, item, items, df. repeat (split; [done |]). split; [| done].
  rewrite (make_view_length _ _ _ Hv), <- length_with_presmpt_num.
  apply sublist_length, kept_rows_sub.
Qed.

(** X16. An answer of status 200 with result code "00" and items whose
    fields are texts or nulls, with prices of at most fifteen digits,
    never reaches the exception handler, whatever the filters: the
    search returns the view of the rows kept, at most as many rows as
    items, or the empty table when no row is kept, and the log ends in
    the count of the rows kept or in the line that says none is
    left. *)
Theorem answered_search_returns (a : args) (server : request → result response)
        (resp : response) (data msg : json) (items : list json)
        (records : list row) :
  nonempty (service_key a) = true →
  server (request_of a) = Ok resp → status_code resp = 200 → json_of resp = Ok data →
  read_header data = Ok (JStr (py "00"), msg) →
  safe_get_items data = Ok items → items ≠ [] →
  mapM flat_record items = Some records →
  Forall short_price records →
  ∃ table,
    run server (search_bids other a)
    = (Ok ([line_requested; line_api (JStr (py "00")) msg]
             ++ filter_lines a (frame_of_records records)
             ++ [match kept_rows a (frame_of_records records) with
                 | [] => line_none_left
                 | rs => line_count (length rs)
                 end],
           table),
       [request_of a]) ∧
    length (rows table) = length (kept_rows a (frame_of_records records)) ∧
    (length (rows table) ≤ length items)%nat ∧
    (kept_rows a (frame_of_records records) ≠ [] →
     make_view (columns (frame_of_records records))
               (kept_rows a (frame_of_records records)) = Ok table).
Proof.
  intros Hkey Hans Hs Hj Hh Hi Hne Hflat Hshort.
  destruct (try_block_answered other a resp data msg items records
              Hs Hj Hh Hi Hne Hflat Hshort) as (table & Hexit & Hlen & Hview).
  exists table. rewrite (run_with_key other a server Hkey), Hans, Hexit.
  split; [reflexivity |]. split; [exact Hlen |]. split; [| exact Hview].
  rewrite Hlen, (length_mapM _ _ _ Hflat).
  change (length records) with (length (rows (frame_of_records records))).
  rewrite <- length_with_presmpt_num. apply sublist_length, kept_rows_sub.
Qed.

(** X17. With no price bound and the contract mode "all", such an
    answer is listed whole: the table has one row per item, the columns
    are the columns of [prefer_cols] present, renamed, and the log is
    the request line, the result line, the line of the contract-method
    step and the count of the items. *)
Theorem unfiltered_search_lists_every_item (a : args) (server : request → result response)
        (resp : response) (data msg : json) (items : list json)
        (records : list row) :
  nonempty (service_key a) = true →
  server (request_of a) = Ok resp → status_code resp = 200 → json_of resp = Ok data →
  read_header data = Ok (JStr (py "00"), msg) →
  safe_get_items data = Ok items → items ≠ [] →
  mapM flat_record items = Some records →
  Forall short_price records →
  min_price a = None → max_price a = None → contract_filter a = py "all" →
  ∃ table,
    (run server (search_bids other a)).1
    = Ok ([line_requested; line_api (JStr (py "00")) msg;
           (filter_contract (columns (frame_of_records records)) (py "all") []).2;
           line_count (length items)], table) ∧
    length (rows table) = length items ∧
    columns table
    = renamed <$> filter (fun c => c ∈ columns (frame_of_records records)) prefer_cols.
Proof.
  intros Hkey Hans Hs Hj Hh Hi Hne Hflat Hshort Hmin Hmax Hall.
  destruct (try_block_answered other a resp data msg items records
              Hs Hj Hh Hi Hne Hflat Hshort) as (table & Hexit & Hlen & Hview).
  rewrite (kept_rows_unfiltered a _ Hmin Hmax Hall) in Hexit, Hlen, Hview.
  assert (Hcount : length (with_presmpt_num (frame_of_records records)) = length items).
  { by rewrite length_with_presmpt_num, (length_mapM _ _ _ Hflat). }
  assert (Hsome : with_presmpt_num (frame_of_records records) ≠ []).
  { intros E. rewrite E in Hcount. destruct items; [done | discriminate]. }
  exists table. rewrite (run_with_key other a server Hkey), Hans, Hexit. cbn [fst].
  split; [| split; [by rewrite Hlen |]].
  - unfold filter_lines. rewrite Hmin, Hmax, Hall. cbn [normalized_money app].
    destruct (with_presmpt_num (frame_of_records records)) as [| r rs] eqn:E; [done |].
    by rewrite <- Hcount.
  - by apply (make_view_columns _ _ _ (Hview Hsome)).
Qed.

End Runs.



Section Main.

Variable other : list json → result DataFrame.


End Main.

(** ** The choices of the form *)

(** X20. The choices of the form mean what they say once they reach
    [search_bids]: on a frame with the contract-method column, "전체"
    keeps every row, "수의계약만" keeps the private contracts and "수의계약 제외"
    keeps the others, as does any label that is neither of the first
    two; the inquiry division is sent as "1" for a label that starts
    with "공고" and as "2" otherwise, which for the two options of the
    radio is 1 for the publication date and 2 for the opening date. *)
Theorem form_choices_reach_search (cols : list str) (rs : list priced) (a : args)
        (label : str) :
  py "cntrctCnclsMthdNm" ∈ cols →
  ((filter_contract cols (contract_filter_of_label (py "전체")) rs).1 = rs ∧
   (filter_contract cols (contract_filter_of_label (py "수의계약만")) rs).1
   = filter (fun r => is_private r = true) rs ∧
   (filter_contract cols (contract_filter_of_label (py "수의계약 제외")) rs).1
   = filter (fun r => is_private r = false) rs ∧
   (label ≠ py "전체" → label ≠ py "수의계약만" →
    (filter_contract cols (contract_filter_of_label label) rs).1
    = filter (fun r => is_private r = false) rs)) ∧
  (inqry_div a = inqry_div_of_label label →
   build_params a !! py "inqryDiv"
   = Some (if prefix_of (py "공고") label then py "1" else py "2")) ∧
  inqry_div_of_label (py "공고게시일 기준") = 1 ∧
  inqry_div_of_label (py "개찰일 기준") = 2.
Proof.
  intros Hcol. split; [| split; [| split; by vm_compute]].
  - assert (Hexclude : (filter_contract cols (py "exclude_private") rs).1
                       = filter (fun r => is_private r = false) rs).
    { unfold filter_contract. rewrite (bool_decide_eq_true_2 _ Hcol).
      rewrite (bool_decide_eq_false_2 (py "exclude_private" = py "only_private"))
        by (by vm_compute).
      by rewrite (bool_decide_eq_true_2 (py "exclude_private" = py "exclude_private")). }
    split; [| split; [| split]].
    + change (contract_filter_of_label (py "전체")) with (py "all").
      unfold filter_contract. rewrite (bool_decide_eq_true_2 _ Hcol).
      rewrite (bool_decide_eq_false_2 (py "all" = py "only_private")) by (by vm_compute).
      by rewrite (bool_decide_eq_false_2 (py "all" = py "exclude_private"))
        by (by vm_compute).
    + change (contract_filter_of_label (py "수의계약만")) with (py "only_private").
      unfold filter_contract. rewrite (bool_decide_eq_true_2 _ Hcol).
      by rewrite (bool_decide_eq_true_2 (py "only_private" = py "only_private")).
    + change (contract_filter_of_label (py "수의계약 제외")) with (py "exclude_private").
      exact Hexclude.
    + intros Hall Honly. unfold contract_filter_of_label.
      rewrite (bool_decide_eq_false_2 _ Hall), (bool_decide_eq_false_2 _ Honly).
      exact Hexclude.
  - intros Hdiv. destruct (build_params_lookup a) as (_ & _ & _ & -> & _).
    rewrite Hdiv. unfold inqry_div_of_label. by destruct (prefix_of _ label).
Qed.

Lemma form_choices_reach_search_witness :
  (filter_contract [py "cntrctCnclsMthdNm"] (contract_filter_of_label (py "수의계약만"))
     [with_method "일반경쟁"; with_method "수의계약"]).1
  = filter (fun r => is_private r = true) [with_method "일반경쟁"; with_method "수의계약"].
Proof.
  refine (proj1 (proj2 (proj1 (form_choices_reach_search [py "cntrctCnclsMthdNm"]
            [with_method "일반경쟁"; with_method "수의계약"] (search_with "KEY" "" "")
            (py "전체") _)))).
  apply list_elem_of_here.
Defined.

(** ** The properties at work *)

Lemma view_cells_witness :
  ∃ view, make_view [py "presmptPrce"] (priced_at [1234567]) = Ok view ∧
          length (rows view) = 1%nat.
Proof.
  assert (H : Forall (fun r => ∃ n, 0 ≤ n < 2 ^ 53 ∧ presmpt_num r = float_of_Z n)
                     (priced_at [1234567])).
  { constructor; [| constructor]. exists 1234567. split; [lia | reflexivity]. }
  pose proof (view_cells [py "presmptPrce"] (priced_at [1234567]) H) as (view & Hv & _ & Hl & _).
  exists view. split; [exact Hv | exact Hl].
Defined.

Lemma date_params_twelve_digits_witness :
  ∃ stamp, build_params (search_with "KEY" "" "") !! py "inqryBgnDt" = Some stamp ∧
           stamp = str_of_int 2024 ++ zero_pad 2 3 ++ zero_pad 2 1 ++ py "0000" ∧
           length stamp = 12%nat ∧ Forall (fun c => is_Some (ascii_digit c)) stamp.
Proof.
  refine (proj1 (date_params_twelve_digits (search_with "KEY" "" "") 2024 3 1 _ _ _) _);
    [lia | lia | lia | reflexivity].
Defined.

Lemma params_key_set_witness :
  is_Some (build_params (search_with "KEY" "도로" "") !! py "bidNtceNm").
Proof.
  refine (proj2 (params_key_set (search_with "KEY" "도로" "") (py "bidNtceNm")) _).
  right. right. right. left. split; [reflexivity | by vm_compute].
Defined.



Lemma table_empty_or_counted_witness :
  log_of (run (answering two_bids)
              (search_bids no_other_shape (search_with "KEY" "" ""))).1 ≠ [].
Proof.
  refine (proj1 (table_empty_or_counted no_other_shape (search_with "KEY" "" "")
                   (answering two_bids)
                   (log_of (run (answering two_bids)
                      (search_bids no_other_shape (search_with "KEY" "" ""))).1)
                   (table_of (run (answering two_bids)
                      (search_bids no_other_shape (search_with "KEY" "" ""))).1)
                   (run (answering two_bids)
                      (search_bids no_other_shape (search_with "KEY" "" ""))).2 _)).
  by vm_compute.
Defined.

Lemma rows_only_on_success_witness :
  nonempty (service_key (search_with "KEY" "" "")) = true.
Proof.
  refine (proj1 (rows_only_on_success no_other_shape (search_with "KEY" "" "")
                   (answering two_bids)
                   (log_of (run (answering two_bids)
                      (search_bids no_other_shape (search_with "KEY" "" ""))).1)
                   (table_of (run (answering two_bids)
                      (search_bids no_other_shape (search_with "KEY" "" ""))).1)
                   (run (answering two_bids)
                      (search_bids no_other_shape (search_with "KEY" "" ""))).2 _ _)).
  - by vm_compute.
  - intros E. apply (f_equal length) in E. vm_compute in E. discriminate.
Defined.

Lemma two_records_flat :
  mapM flat_record
    [bid "도로 보수" "100,000,000" "일반경쟁"; bid "청사 증축" "500,000,000" "수의계약"]
  = Some two_records.
Proof. vm_compute. reflexivity. Qed.

Lemma two_records_short : Forall short_price two_records.
Proof. unfold short_price. apply (bool_decide_unpack _). vm_compute. reflexivity. Qed.

Lemma two_bids_header : read_header two_bids = Ok (JStr (py "00"), JStr (py "정상")).
Proof. vm_compute. reflexivity. Qed.

Lemma two_bids_items :
  safe_get_items two_bids
  = Ok [bid "도로 보수" "100,000,000" "일반경쟁"; bid "청사 증축" "500,000,000" "수의계약"].
Proof. vm_compute. reflexivity. Qed.

Lemma answered_search_returns_witness :
  ∃ table,
    length (rows table)
    = length (kept_rows (search_with "KEY" "" "") (frame_of_records two_records)) ∧
    (length (rows table) ≤ 2)%nat.
Proof.
  destruct (answered_search_returns no_other_shape (search_with "KEY" "" "")
              (answering two_bids) (mkResponse 200 (py "") (Ok two_bids)) two_bids
              (JStr (py "정상")) _ two_records
              eq_refl eq_refl eq_refl eq_refl two_bids_header two_bids_items
              ltac:(discriminate) two_records_flat two_records_short)
    as (table & _ & Hlen & Hle & _).
  exists table. split; [exact Hlen | exact Hle].
Defined.

Lemma unfiltered_search_lists_every_item_witness :
  ∃ table,
    (run (answering two_bids) (search_bids no_other_shape (search_with "KEY" "" ""))).1
    = Ok ([line_requested; line_api (JStr (py "00")) (JStr (py "정상"));
           (filter_contract (columns (frame_of_records two_records)) (py "all") []).2;
           line_count 2], table) ∧
    length (rows table) = 2%nat.
Proof.
  destruct (unfiltered_search_lists_every_item no_other_shape (search_with "KEY" "" "")
              (answering two_bids) (mkResponse 200 (py "") (Ok two_bids)) two_bids
              (JStr (py "정상")) _ two_records
              eq_refl eq_refl eq_refl eq_refl two_bids_header two_bids_items
              ltac:(discriminate) two_records_flat two_records_short
              eq_refl eq_refl eq_refl)
    as (table & Hrun & Hlen & _).
  exists table. split; [exact Hrun | exact Hlen].
Defined.
